(** * fabric-mcp: a shallow embedding of [fabric.py]

    The module exposes the Fabric REST API as MCP tools.  Every tool is a
    short Python function that resolves its arguments, fetches a bearer
    token with [get_access_token], sends one HTTP request through the
    [requests] library and maps the response to a dictionary.

    Python values are embedded as [pyval]; dictionaries keep insertion
    order, as Python's do.  A tool is a program of the monad [prog]: it
    returns, raises, or performs a [requests] call and continues with the
    response.  [run] executes a program against a transport, threading the
    transport's state and logging every call that was made.  A transport
    answers every call with a response: what the tools do with an HTTP
    answer is in the model, a connection that fails before any answer is
    not. *)

From Stdlib Require Import String Ascii List ZArith Bool Lia DecimalString.
Import ListNotations.
Local Open Scope string_scope.
Local Open Scope Z_scope.

Set Implicit Arguments.
Set Warnings "-register-all".

(** ** Python values *)

(** The objects that [resp.json()] produces and that the tools return.
    JSON numbers are the integers here. *)
Inductive pyval : Type :=
| PNone
| PBool (b : bool)
| PInt (n : Z)
| PStr (s : string)
| PList (l : list pyval)
| PDict (d : list (pyval * pyval)).

Definition pydict := list (pyval * pyval).

(** [bool(v)], the test behind [if not v] and [a or b]. *)
Definition truthy (v : pyval) : bool :=
  match v with
  | PNone => false
  | PBool b => b
  | PInt n => negb (n =? 0)
  | PStr s => negb (String.eqb s EmptyString)
  | PList l => match l with [] => false | _ => true end
  | PDict d => match d with [] => false | _ => true end
  end.

(** Lists and dictionaries are unhashable: they cannot be dictionary keys. *)
Definition hashable (v : pyval) : bool :=
  match v with
  | PList _ | PDict _ => false
  | _ => true
  end.

(** Equality of dictionary keys; [True == 1] and [False == 0] in Python. *)
Definition key_eqb (a b : pyval) : bool :=
  match a, b with
  | PNone, PNone => true
  | PBool x, PBool y => Bool.eqb x y
  | PInt n, PInt m => n =? m
  | PBool x, PInt m => Z.b2z x =? m
  | PInt n, PBool y => n =? Z.b2z y
  | PStr s, PStr t => String.eqb s t
  | _, _ => false
  end.

(** [d.get(k)] as an option: the value stored under the first equal key. *)
Fixpoint dict_lookup (d : pydict) (k : pyval) : option pyval :=
  match d with
  | [] => None
  | (k', v) :: rest => if key_eqb k' k then Some v else dict_lookup rest k
  end.

(** [d[k] = v]: an existing key keeps its place and takes the new value, a
    new key goes to the end. *)
Fixpoint dict_set (d : pydict) (k v : pyval) : pydict :=
  match d with
  | [] => [(k, v)]
  | (k', v') :: rest =>
      if key_eqb k' k then (k', v) :: rest else (k', v') :: dict_set rest k v
  end.

(** [str(n)] for an integer. *)
Definition str_int (n : Z) : string := NilZero.string_of_int (Z.to_int n).

(** ** Exceptions, responses and requests *)

Inductive exn : Type :=
| RuntimeError (msg : string)
| HTTPError (msg : string)
| JSONDecodeError
| AttributeError (msg : string)
| TypeError (msg : string)
| KeyError (key : string).

(** What the tools read from a [requests.Response].  [json] is the result
    of [resp.json()]; [None] stands for a body that does not decode, where
    the call raises. *)
Record Response : Type := mkResponse {
  status_code : Z;
  reason : string;
  url : string;
  text : string;
  json : option pyval
}.

(** The three ways the module calls [requests]. *)
Inductive Request : Type :=
| POST_data (url : string) (data : list (string * string))
| GET (url : string) (headers : list (string * string))
| POST_json (url : string) (payload : pyval)
            (headers : list (string * string)).

(** ** Programs *)

Inductive prog (A : Type) : Type :=
| Ret (a : A)
| Raise (e : exn)
| Call (r : Request) (k : Response -> prog A).

Arguments Raise {A} e.
Arguments Call {A} r k.

Fixpoint bind {A B : Type} (p : prog A) (f : A -> prog B) : prog B :=
  match p with
  | Ret a => f a
  | Raise e => Raise e
  | Call r k => Call r (fun resp => bind (k resp) f)
  end.

Notation "x <- p ;; q" := (bind p (fun x => q))
  (at level 61, p at next level, right associativity).
Notation "p ;;; q" := (bind p (fun _ => q))
  (at level 61, right associativity).

(** [try: p except ...: h e].  The handler re-raises what it does not
    catch. *)
Fixpoint try_except {A : Type} (p : prog A) (h : exn -> prog A) : prog A :=
  match p with
  | Ret a => Ret a
  | Raise e => h e
  | Call r k => Call r (fun resp => try_except (k resp) h)
  end.

(** The end of a run: a value or an uncaught exception. *)
Inductive outcome (A : Type) : Type :=
| Returned (a : A)
| Raised (e : exn).

Arguments Raised {A} e.

(** A transport answers each request and may change its own state. *)
Definition transport (S : Type) : Type := S -> Request -> Response * S.

(** [run h p s] executes [p] against [h] from state [s] and gives the
    outcome, the final state and the calls made, oldest first. *)
Fixpoint run {S A : Type} (h : transport S) (p : prog A) (s : S)
  : outcome A * S * list Request :=
  match p with
  | Ret a => (Returned a, s, [])
  | Raise e => (Raised e, s, [])
  | Call r k =>
      let '(resp, s1) := h s r in
      let '(o, s2, tr) := run h (k resp) s1 in
      (o, s2, r :: tr)
  end.

(** [requests.post(url, data=...)], [requests.get(url, headers=...)] and
    [requests.post(url, json=..., headers=...)]. *)
Definition requests_post_data (url : string) (data : list (string * string))
  : prog Response := Call (POST_data url data) (fun resp => Ret resp).

Definition requests_get (url : string) (headers : list (string * string))
  : prog Response := Call (GET url headers) (fun resp => Ret resp).

Definition requests_post_json (url : string) (payload : pyval)
  (headers : list (string * string)) : prog Response :=
  Call (POST_json url payload headers) (fun resp => Ret resp).

(** ** The parts of Python and [requests] the module relies on *)

Definition type_name (v : pyval) : string :=
  match v with
  | PNone => "NoneType"
  | PBool _ => "bool"
  | PInt _ => "int"
  | PStr _ => "str"
  | PList _ => "list"
  | PDict _ => "dict"
  end.

(** A dictionary display with string keys, [{"k": v, ...}]. *)
Definition py_dict (items : list (string * pyval)) : pyval :=
  PDict (map (fun kv => (PStr (fst kv), snd kv)) items).

(** An [Optional[str]] as a Python object. *)
Definition opt_val (o : option string) : pyval :=
  match o with
  | Some s => PStr s
  | None => PNone
  end.

(** [a or b]. *)
Definition py_or (a b : pyval) : pyval := if truthy a then a else b.

(** [v.get(key, default)]; only dictionaries have the method. *)
Definition py_get (v : pyval) (key : string) (default : pyval) : prog pyval :=
  match v with
  | PDict d =>
      Ret (match dict_lookup d (PStr key) with
           | Some x => x
           | None => default
           end)
  | _ => Raise (AttributeError
                  ("'" ++ type_name v ++ "' object has no attribute 'get'"))
  end.

(** [v[key]] for a string [key]. *)
Definition py_getitem (v : pyval) (key : string) : prog pyval :=
  match v with
  | PDict d =>
      match dict_lookup d (PStr key) with
      | Some x => Ret x
      | None => Raise (KeyError key)
      end
  | PList _ => Raise (TypeError "list indices must be integers or slices, not str")
  | PStr _ => Raise (TypeError "string indices must be integers, not 'str'")
  | _ => Raise (TypeError ("'" ++ type_name v ++ "' object is not subscriptable"))
  end.

(** The items a [for] clause draws from [v]. *)
Definition py_iter (v : pyval) : prog (list pyval) :=
  match v with
  | PList l => Ret l
  | PDict d => Ret (map fst d)
  | PStr s => Ret (map (fun c => PStr (String c EmptyString)) (list_ascii_of_string s))
  | _ => Raise (TypeError ("'" ++ type_name v ++ "' object is not iterable"))
  end.

(** Storing under key [k] while a dictionary is built. *)
Definition py_setitem (d : pydict) (k v : pyval) : prog pydict :=
  if hashable k then Ret (dict_set d k v)
  else Raise (TypeError ("unhashable type: '" ++ type_name k ++ "'")).

(** [{x[kname]: x[vname] for x in items}], continued from [acc]. *)
Fixpoint dict_comprehension (kname vname : string) (items : list pyval)
  (acc : pydict) : prog pydict :=
  match items with
  | [] => Ret acc
  | x :: rest =>
      k <- py_getitem x kname ;;
      v <- py_getitem x vname ;;
      acc' <- py_setitem acc k v ;;
      dict_comprehension kname vname rest acc'
  end.

(** [resp.json()]. *)
Definition resp_json (resp : Response) : prog pyval :=
  match json resp with
  | Some v => Ret v
  | None => Raise JSONDecodeError
  end.

(** [resp.raise_for_status()]: [HTTPError] for a 4xx or 5xx status. *)
Definition raise_for_status (resp : Response) : prog unit :=
  let code := status_code resp in
  if (400 <=? code) && (code <? 500) then
    Raise (HTTPError (str_int code ++ " Client Error: " ++ reason resp
                      ++ " for url: " ++ url resp))
  else if (500 <=? code) && (code <? 600) then
    Raise (HTTPError (str_int code ++ " Server Error: " ++ reason resp
                      ++ " for url: " ++ url resp))
  else Ret tt.

(** [json.dumps] and the [str] of a list or dictionary belong to the
    standard library of Python; the module is verified for any behaviour
    of the two. *)
Class PyLib : Type := {
  json_dumps : pyval -> Z -> string;
  container_str : pyval -> string
}.

(** [str(v)], as an f-string formats [{v}]. *)
Definition py_str `{PyLib} (v : pyval) : string :=
  match v with
  | PNone => "None"
  | PBool true => "True"
  | PBool false => "False"
  | PInt n => str_int n
  | PStr s => s
  | PList _ | PDict _ => container_str v
  end.

Definition newline : string := String (ascii_of_nat 10) EmptyString.

(** ** Configuration *)

(** The values the module reads from the environment when it is loaded.
    Loading fails unless the first three are non-empty. *)
Record Config : Type := mkConfig {
  TENANT_ID : string;
  CLIENT_ID : string;
  CLIENT_SECRET : string;
  USER_OBJECT_ID : option string;
  CAPACITY_ID : option string;
  ENV_SOURCE : string
}.

Definition FABRIC_BASE : string := "https://api.fabric.microsoft.com/v1".

(** ** The module's functions *)

Section Server.

Context `{PyLib}.
Variable cfg : Config.

(** The request [get_access_token] posts to the identity endpoint. *)
Definition token_request : Request :=
  POST_data
    ("https://login.microsoftonline.com/" ++ TENANT_ID cfg ++ "/oauth2/v2.0/token")
    [("client_id", CLIENT_ID cfg);
     ("client_secret", CLIENT_SECRET cfg);
     ("scope", "https://api.fabric.microsoft.com/.default");
     ("grant_type", "client_credentials")].

Definition get_access_token : prog pyval :=
  let url :=
    "https://login.microsoftonline.com/" ++ TENANT_ID cfg ++ "/oauth2/v2.0/token" in
  let payload :=
    [("client_id", CLIENT_ID cfg);
     ("client_secret", CLIENT_SECRET cfg);
     ("scope", "https://api.fabric.microsoft.com/.default");
     ("grant_type", "client_credentials")] in
  resp <- requests_post_data url payload ;;
  try_except (raise_for_status resp)
    (fun e =>
       match e with
       | HTTPError e =>
           Raise (RuntimeError
                    ("Token request failed: " ++ e ++ newline
                     ++ "Status=" ++ str_int (status_code resp) ++ newline
                     ++ "Body=" ++ text resp ++ newline
                     ++ "Tenant=" ++ TENANT_ID cfg
                     ++ " ClientId=" ++ substring 0 6 (CLIENT_ID cfg) ++ "... "
                     ++ "EnvSource=" ++ ENV_SOURCE cfg))
       | _ => Raise e
       end) ;;;
  data <- resp_json resp ;;
  token <- py_get data "access_token" PNone ;;
  if negb (truthy token) then
    Raise (RuntimeError ("No access_token in response: " ++ json_dumps data 2))
  else Ret token.

Definition _headers (token : pyval) : list (string * string) :=
  [("Authorization", "Bearer " ++ py_str token);
   ("Content-Type", "application/json")].

Definition get_existing_workspaces : prog pyval :=
  token <- get_access_token ;;
  let url := FABRIC_BASE ++ "/workspaces" in
  resp <- requests_get url [("Authorization", "Bearer " ++ py_str token)] ;;
  if status_code resp =? 401 then
    Ret (py_dict [("error", PStr "401 Unauthorized"); ("body", PStr (text resp))])
  else
    raise_for_status resp ;;;
    data <- resp_json resp ;;
    value <- py_get data "value" (PList []) ;;
    items <- py_iter value ;;
    m <- dict_comprehension "displayName" "id" items [] ;;
    Ret (PDict m).

Definition create_workspace (name : string) (capacity_id : option string)
  : prog pyval :=
  let cid := py_or (opt_val capacity_id) (opt_val (CAPACITY_ID cfg)) in
  if negb (truthy cid) then
    Ret (py_dict [("error",
                   PStr "capacity_id not provided and CAPACITY_ID missing in .env")])
  else
    token <- get_access_token ;;
    let url := FABRIC_BASE ++ "/workspaces" in
    let payload := py_dict [("displayName", PStr name); ("capacityId", cid)] in
    resp <- requests_post_json url payload (_headers token) ;;
    if status_code resp =? 201 then
      j <- resp_json resp ;;
      i <- py_get j "id" PNone ;;
      Ret (py_dict [("workspace_id", i)])
    else
      Ret (py_dict [("status", PInt (status_code resp));
                    ("body", PStr (text resp))]).

Definition assign_workspace_admin (workspace_id : string)
  (user_object_id : option string) : prog pyval :=
  let uid := py_or (opt_val user_object_id) (opt_val (USER_OBJECT_ID cfg)) in
  if negb (truthy uid) then
    Ret (py_dict [("error",
                   PStr "user_object_id not provided and USER_OBJECT_ID missing in .env")])
  else
    token <- get_access_token ;;
    let url := FABRIC_BASE ++ "/workspaces/" ++ workspace_id ++ "/roleAssignments" in
    let payload :=
      py_dict [("principal", py_dict [("id", uid); ("type", PStr "User")]);
               ("role", PStr "Admin")] in
    resp <- requests_post_json url payload (_headers token) ;;
    Ret (py_dict [("status", PInt (status_code resp));
                  ("body", PStr (text resp))]).

Definition create_workspace_folder (workspace_id folder_name : string)
  (parent_folder_id : option string) : prog pyval :=
  token <- get_access_token ;;
  let url := FABRIC_BASE ++ "/workspaces/" ++ workspace_id ++ "/folders" in
  let payload := [(PStr "displayName", PStr folder_name)] in
  let payload :=
    if truthy (opt_val parent_folder_id)
    then dict_set payload (PStr "parentFolderId") (opt_val parent_folder_id)
    else payload in
  resp <- requests_post_json url (PDict payload) (_headers token) ;;
  if status_code resp =? 201 then
    j <- resp_json resp ;;
    i <- py_get j "id" PNone ;;
    n <- py_get j "displayName" PNone ;;
    Ret (py_dict [("folder_id", i); ("displayName", n)])
  else
    Ret (py_dict [("status", PInt (status_code resp));
                  ("body", PStr (text resp))]).

Definition create_lakehouse (workspace_id lakehouse_name : string)
  : prog pyval :=
  token <- get_access_token ;;
  let url := FABRIC_BASE ++ "/workspaces/" ++ workspace_id ++ "/lakehouses" in
  let payload := py_dict [("displayName", PStr lakehouse_name)] in
  resp <- requests_post_json url payload (_headers token) ;;
  Ret (py_dict [("status", PInt (status_code resp));
                ("body", PStr (text resp))]).

Definition create_warehouse (workspace_id warehouse_name : string)
  : prog pyval :=
  token <- get_access_token ;;
  let url := FABRIC_BASE ++ "/workspaces/" ++ workspace_id ++ "/warehouses" in
  let payload := py_dict [("displayName", PStr warehouse_name)] in
  resp <- requests_post_json url payload (_headers token) ;;
  Ret (py_dict [("status", PInt (status_code resp));
                ("body", PStr (text resp))]).

Definition create_deployment_pipeline (name description : string)
  (stages : list string) : prog pyval :=
  token <- get_access_token ;;
  let url := FABRIC_BASE ++ "/deploymentPipelines" in
  let payload :=
    py_dict [("displayName", PStr name);
             ("description", PStr description);
             ("stages",
              PList (map (fun s =>
                            py_dict [("displayName", PStr s);
                                     ("description", PStr (s ++ " stage"));
                                     ("isPublic", PBool false)])
                         stages))] in
  resp <- requests_post_json url payload (_headers token) ;;
  if status_code resp =? 201 then
    p <- resp_json resp ;;
    value <- py_get p "stages" (PList []) ;;
    items <- py_iter value ;;
    stage_map <- dict_comprehension "displayName" "id" items [] ;;
    i <- py_get p "id" PNone ;;
    Ret (py_dict [("pipeline_id", i); ("stages", PDict stage_map)])
  else
    Ret (py_dict [("status", PInt (status_code resp));
                  ("body", PStr (text resp))]).

Definition assign_workspace_to_stage (pipeline_id stage_id workspace_id : string)
  : prog pyval :=
  token <- get_access_token ;;
  let url := FABRIC_BASE ++ "/deploymentPipelines/" ++ pipeline_id
             ++ "/stages/" ++ stage_id ++ "/assignWorkspace" in
  let payload := py_dict [("workspaceId", PStr workspace_id)] in
  resp <- requests_post_json url payload (_headers token) ;;
  Ret (py_dict [("status", PInt (status_code resp));
                ("body", PStr (text resp))]).

Definition assign_pipeline_admin (pipeline_id : string)
  (user_object_id : option string) : prog pyval :=
  let uid := py_or (opt_val user_object_id) (opt_val (USER_OBJECT_ID cfg)) in
  if negb (truthy uid) then
    Ret (py_dict [("error",
                   PStr "user_object_id not provided and USER_OBJECT_ID missing in .env")])
  else
    token <- get_access_token ;;
    let url := FABRIC_BASE ++ "/deploymentPipelines/" ++ pipeline_id
               ++ "/roleAssignments" in
    let payload :=
      py_dict [("principal", py_dict [("id", uid); ("type", PStr "User")]);
               ("role", PStr "Admin")] in
    resp <- requests_post_json url payload (_headers token) ;;
    Ret (py_dict [("status", PInt (status_code resp));
                  ("body", PStr (text resp))]).

End Server.

(** ** Invocations *)

(** A call of one of the nine tools that forward to Fabric, with its
    arguments. *)
Inductive tool_call : Type :=
| call_get_existing_workspaces
| call_create_workspace (name : string) (capacity_id : option string)
| call_assign_workspace_admin (workspace_id : string)
    (user_object_id : option string)
| call_create_workspace_folder (workspace_id folder_name : string)
    (parent_folder_id : option string)
| call_create_lakehouse (workspace_id lakehouse_name : string)
| call_create_warehouse (workspace_id warehouse_name : string)
| call_create_deployment_pipeline (name description : string)
    (stages : list string)
| call_assign_workspace_to_stage (pipeline_id stage_id workspace_id : string)
| call_assign_pipeline_admin (pipeline_id : string)
    (user_object_id : option string).

Definition invoke `{PyLib} (cfg : Config) (c : tool_call) : prog pyval :=
  match c with
  | call_get_existing_workspaces => get_existing_workspaces cfg
  | call_create_workspace name capacity_id =>
      create_workspace cfg name capacity_id
  | call_assign_workspace_admin workspace_id user_object_id =>
      assign_workspace_admin cfg workspace_id user_object_id
  | call_create_workspace_folder workspace_id folder_name parent_folder_id =>
      create_workspace_folder cfg workspace_id folder_name parent_folder_id
  | call_create_lakehouse workspace_id lakehouse_name =>
      create_lakehouse cfg workspace_id lakehouse_name
  | call_create_warehouse workspace_id warehouse_name =>
      create_warehouse cfg workspace_id warehouse_name
  | call_create_deployment_pipeline name description stages =>
      create_deployment_pipeline cfg name description stages
  | call_assign_workspace_to_stage pipeline_id stage_id workspace_id =>
      assign_workspace_to_stage cfg pipeline_id stage_id workspace_id
  | call_assign_pipeline_admin pipeline_id user_object_id =>
      assign_pipeline_admin cfg pipeline_id user_object_id
  end.

(** The value a defaulted argument resolves to. *)
Definition resolved (arg default : option string) : pyval :=
  py_or (opt_val arg) (opt_val default).

(** Argument resolution passes: the defaulted argument of the call, if it
    has one, resolves to a non-empty value. *)
Definition resolves (cfg : Config) (c : tool_call) : bool :=
  match c with
  | call_create_workspace _ capacity_id =>
      truthy (resolved capacity_id (CAPACITY_ID cfg))
  | call_assign_workspace_admin _ user_object_id
  | call_assign_pipeline_admin _ user_object_id =>
      truthy (resolved user_object_id (USER_OBJECT_ID cfg))
  | _ => true
  end.

(** The status a tool maps to its own result, for the tools that have
    one. *)
Definition success_status (c : tool_call) : option Z :=
  match c with
  | call_create_workspace _ _
  | call_create_workspace_folder _ _ _
  | call_create_deployment_pipeline _ _ _ => Some 201
  | _ => None
  end.

(** The [Authorization] header of an upstream call; the token request has
    none. *)
Definition authorization (r : Request) : option string :=
  match r with
  | POST_data _ _ => None
  | GET _ headers | POST_json _ _ headers =>
      option_map snd (find (fun kv => String.eqb (fst kv) "Authorization") headers)
  end.

(** The result that passes an upstream answer through. *)
Definition passthrough (resp : Response) : pyval :=
  py_dict [("status", PInt (status_code resp)); ("body", PStr (text resp))].

(** The result of a failed argument resolution. *)
Definition error_result (msg : string) : pyval := py_dict [("error", PStr msg)].

(** ** Vocabulary of the statements *)

(** A program that makes no call leaves the transport alone. *)
Definition call_free {A : Type} (p : prog A) : bool :=
  match p with
  | Call _ _ => false
  | _ => true
  end.

(** The outcome of a program that makes no call. *)
Definition result_of {A : Type} (p : prog A) : outcome A :=
  match p with
  | Ret a => Returned a
  | Raise e => Raised e
  | Call _ _ => Raised (RuntimeError "call")
  end.

(** Acquire a token, make the single upstream call [req token], and map
    the answer with [finish]. *)
Definition forward `{PyLib} (cfg : Config) (req : pyval -> Request)
  (finish : Response -> prog pyval) : prog pyval :=
  token <- get_access_token cfg ;; Call (req token) finish.

(** The call [get_existing_workspaces] makes with token [token]. *)
Definition list_request `{PyLib} (token : pyval) : Request :=
  GET (FABRIC_BASE ++ "/workspaces") [("Authorization", "Bearer " ++ py_str token)].

(** The bodies [create_workspace] and the two admin tools post for a
    resolved value [v]. *)
Definition workspace_payload (name v : string) : pyval :=
  py_dict [("displayName", PStr name); ("capacityId", PStr v)].

Definition admin_payload (v : string) : pyval :=
  py_dict [("principal", py_dict [("id", PStr v); ("type", PStr "User")]);
           ("role", PStr "Admin")].

(** The calls [create_workspace] and [create_deployment_pipeline] make with
    token [token]. *)
Definition workspace_request `{PyLib} (name cid : string) (token : pyval)
  : Request :=
  POST_json (FABRIC_BASE ++ "/workspaces") (workspace_payload name cid)
    (_headers token).

(** The stage object of a stage name. *)
Definition stage_object (s : string) : pyval :=
  py_dict [("displayName", PStr s);
           ("description", PStr (s ++ " stage"));
           ("isPublic", PBool false)].

Definition pipeline_request `{PyLib} (name description : string)
  (stages : list string) (token : pyval) : Request :=
  POST_json (FABRIC_BASE ++ "/deploymentPipelines")
    (py_dict [("displayName", PStr name);
              ("description", PStr description);
              ("stages", PList (map stage_object stages))])
    (_headers token).

(** [d.get(key)]. *)
Definition get_or_none (d : pydict) (key : string) : pyval :=
  match dict_lookup d (PStr key) with
  | Some x => x
  | None => PNone
  end.

(** Two calls of [create_workspace] with the same arguments. *)
Definition create_workspace_twice `{PyLib} (cfg : Config) (name : string)
  (capacity_id : option string) : prog (pyval * pyval) :=
  r1 <- create_workspace cfg name capacity_id ;;
  r2 <- create_workspace cfg name capacity_id ;;
  Ret (r1, r2).

(** The rest of [get_access_token] once the identity endpoint has answered
    with [resp]. *)
Definition after_token_response `{PyLib} (cfg : Config) (resp : Response)
  : prog pyval :=
  match get_access_token cfg with
  | Call _ k => k resp
  | p => p
  end.

(** The configuration with another client secret. *)
Definition with_secret (cfg : Config) (secret : string) : Config :=
  {| TENANT_ID := TENANT_ID cfg;
     CLIENT_ID := CLIENT_ID cfg;
     CLIENT_SECRET := secret;
     USER_OBJECT_ID := USER_OBJECT_ID cfg;
     CAPACITY_ID := CAPACITY_ID cfg;
     ENV_SOURCE := ENV_SOURCE cfg |}.

(** The message of the failure raised for a 4xx or 5xx answer; [e] is the
    text of the [HTTPError]. *)
Definition token_failure_message (cfg : Config) (resp : Response) (e : string)
  : string :=
  "Token request failed: " ++ e ++ newline
  ++ "Status=" ++ str_int (status_code resp) ++ newline
  ++ "Body=" ++ text resp ++ newline
  ++ "Tenant=" ++ TENANT_ID cfg
  ++ " ClientId=" ++ substring 0 6 (CLIENT_ID cfg) ++ "... "
  ++ "EnvSource=" ++ ENV_SOURCE cfg.

(** An array entry carries a display name and an id. *)
Definition carries (entry : pyval) (p : string * pyval) : Prop :=
  exists d, entry = PDict d
            /\ dict_lookup d (PStr "displayName") = Some (PStr (fst p))
            /\ dict_lookup d (PStr "id") = Some (snd p).

(** The id of the last pair named [k]. *)
Fixpoint last_id (k : string) (pairs : list (string * pyval)) : option pyval :=
  match pairs with
  | [] => None
  | (n, i) :: rest =>
      match last_id k rest with
      | Some v => Some v
      | None => if String.eqb n k then Some i else None
      end
  end.

(** [m] is the name-to-id mapping of [pairs]: its keys are names of
    [pairs], a name is mapped to the id of its last pair, and when no name
    repeats [m] lists the pairs as they come. *)
Definition name_id_mapping (pairs : list (string * pyval)) (m : pydict) : Prop :=
  (forall k, dict_lookup m (PStr k) = last_id k pairs)
  /\ (forall kv, In kv m -> exists n, fst kv = PStr n /\ In n (map fst pairs))
  /\ (NoDup (map fst pairs) -> m = map (fun p => (PStr (fst p), snd p)) pairs).

(** One step of the comprehension: store the id of [p] under its name. *)
Definition store (d : pydict) (p : string * pyval) : pydict :=
  dict_set d (PStr (fst p)) (snd p).

(** The array a document holds under [key]; a document without the key
    has the empty array. *)
Definition array_at (key : string) (data : pydict) (entries : list pyval) : Prop :=
  dict_lookup data (PStr key) = Some (PList entries)
  \/ (dict_lookup data (PStr key) = None /\ entries = []).

(** The calls a defaulted tool makes carry a non-empty resolved value. *)
Definition carries_value (wrap : string -> pyval) (r : Request) : Prop :=
  match r with
  | POST_json _ payload _ => exists v, v <> EmptyString /\ payload = wrap v
  | _ => True
  end.

(** ** Diagnostics and loading *)

(** [len(v)]. *)
Definition py_len (v : pyval) : prog pyval :=
  match v with
  | PStr s => Ret (PInt (Z.of_nat (String.length s)))
  | PList l => Ret (PInt (Z.of_nat (List.length l)))
  | PDict d => Ret (PInt (Z.of_nat (List.length d)))
  | _ => Raise (TypeError ("object of type '" ++ type_name v ++ "' has no len()"))
  end.

(** [mcp_env_info]; [cwd] is what [os.getcwd()] gives at the call. *)
Definition mcp_env_info (cfg : Config) (cwd : string) : prog pyval :=
  Ret (py_dict
         [("cwd", PStr cwd);
          ("env_source", PStr (ENV_SOURCE cfg));
          ("has_tenant_id", PBool (truthy (PStr (TENANT_ID cfg))));
          ("has_client_id", PBool (truthy (PStr (CLIENT_ID cfg))));
          ("has_client_secret", PBool (truthy (PStr (CLIENT_SECRET cfg))));
          ("has_user_object_id", PBool (truthy (opt_val (USER_OBJECT_ID cfg))));
          ("has_capacity_id", PBool (truthy (opt_val (CAPACITY_ID cfg))))]).

Definition test_token `{PyLib} (cfg : Config) : prog pyval :=
  token <- get_access_token cfg ;;
  n <- py_len token ;;
  Ret (py_dict [("access_token_len", n)]).

(** What the module finds when it is loaded: the environment after
    [load_dotenv], the working directory, the path [find_dotenv] gave and
    whether [load_dotenv] loaded it. *)
Record Process : Type := mkProcess {
  getenv : string -> option string;
  getcwd : string;
  dotenv_path : string;
  loaded : bool
}.

(** The string of a variable that is set. *)
Definition text_of (o : option string) : string :=
  match o with
  | Some s => s
  | None => EmptyString
  end.

(** The required keys that are unset or empty,
    [[k for k, v in REQUIRED.items() if not v]]. *)
Definition missing (p : Process) : list string :=
  let REQUIRED :=
    [("TENANT_ID", getenv p "TENANT_ID");
     ("CLIENT_ID", getenv p "CLIENT_ID");
     ("CLIENT_SECRET", getenv p "CLIENT_SECRET")] in
  map fst (filter (fun kv => negb (truthy (opt_val (snd kv)))) REQUIRED).

(** Loading the module: it raises when a required key is missing and
    otherwise defines the configuration the tools read. *)
Definition load_module (p : Process) : outcome Config :=
  let env_source := if loaded p then dotenv_path p else "(no .env found)" in
  match missing p with
  | [] =>
      Returned {| TENANT_ID := text_of (getenv p "TENANT_ID");
                  CLIENT_ID := text_of (getenv p "CLIENT_ID");
                  CLIENT_SECRET := text_of (getenv p "CLIENT_SECRET");
                  USER_OBJECT_ID := getenv p "USER_OBJECT_ID";
                  CAPACITY_ID := getenv p "CAPACITY_ID";
                  ENV_SOURCE := env_source |}
  | _ :: _ =>
      Raised (RuntimeError
                ("Missing required .env values: "
                 ++ String.concat ", " (missing p) ++ ". "
                 ++ "WorkingDir=" ++ getcwd p
                 ++ " EnvSource=" ++ env_source))
  end.

(** A variable is set to a non-empty string. *)
Definition is_set (o : option string) : Prop :=
  exists v, o = Some v /\ v <> EmptyString.

(** The configuration with another client id. *)
Definition with_client_id (cfg : Config) (client : string) : Config :=
  {| TENANT_ID := TENANT_ID cfg;
     CLIENT_ID := client;
     CLIENT_SECRET := CLIENT_SECRET cfg;
     USER_OBJECT_ID := USER_OBJECT_ID cfg;
     CAPACITY_ID := CAPACITY_ID cfg;
     ENV_SOURCE := ENV_SOURCE cfg |}.

(** The address a call goes to. *)
Definition request_url (r : Request) : string :=
  match r with
  | POST_data u _ | GET u _ | POST_json u _ _ => u
  end.

(** The calls of the folder tool and of the two admin tools with token
    [token]. *)
Definition folder_request `{PyLib} (workspace_id : string) (body : pyval)
  (token : pyval) : Request :=
  POST_json (FABRIC_BASE ++ "/workspaces/" ++ workspace_id ++ "/folders") body
    (_headers token).

Definition workspace_admin_request `{PyLib} (workspace_id uid : string)
  (token : pyval) : Request :=
  POST_json (FABRIC_BASE ++ "/workspaces/" ++ workspace_id ++ "/roleAssignments")
    (admin_payload uid) (_headers token).

Definition pipeline_admin_request `{PyLib} (pipeline_id uid : string)
  (token : pyval) : Request :=
  POST_json (FABRIC_BASE ++ "/deploymentPipelines/" ++ pipeline_id
             ++ "/roleAssignments")
    (admin_payload uid) (_headers token).

(** The status lets [raise_for_status] pass. *)
Definition passes (resp : Response) : Prop :=
  ~ 400 <= status_code resp < 600.

(** A process for the examples, with and without the client secret. *)
Definition sample_env (secret : option string) (key : string) : option string :=
  if String.eqb key "TENANT_ID" then Some "tenant-0"
  else if String.eqb key "CLIENT_ID" then Some "client-0123"
  else if String.eqb key "CLIENT_SECRET" then secret
  else if String.eqb key "CAPACITY_ID" then Some "cap-9"
  else None.

Definition sample_process (secret : option string) : Process :=
  {| getenv := sample_env secret; getcwd := "/app";
     dotenv_path := "/app/.env"; loaded := true |}.

(** A process whose environment holds the client id alone. *)
Definition client_only_process : Process :=
  {| getenv := fun key =>
                 if String.eqb key "CLIENT_ID" then Some "client-0123" else None;
     getcwd := "/app"; dotenv_path := "/app/.env"; loaded := true |}.

(** Answers used in the examples of the tools' edge cases. *)
Definition created (j : option pyval) : Response :=
  {| status_code := 201; reason := "Created";
     url := "https://api.fabric.microsoft.com/v1/workspaces";
     text := "(created)"; json := j |}.

Definition listing_without_id : pyval :=
  py_dict [("value",
            PList [py_dict [("displayName", PStr "A"); ("id", PStr "1")];
                   py_dict [("displayName", PStr "B")]])].

(** ** Transports used in the examples *)

(** An instance of the library functions for closed examples: every
    document prints as the same placeholder. *)
Definition sample_lib : PyLib :=
  {| json_dumps := fun _ _ => "(json)"; container_str := fun _ => "(container)" |}.

(** Answers the calls from a script of responses, in order. *)
Definition scripted (default : Response) : transport (list Response) :=
  fun s _ =>
    match s with
    | [] => (default, [])
    | resp :: rest => (resp, rest)
    end.

(** A 200 answer with document [j]. *)
Definition ok_response (j : pyval) (body : string) : Response :=
  {| status_code := 200; reason := "OK"; url := EmptyString; text := body; json := Some j |}.

(** The identity endpoint grants the token [tok]. *)
Definition token_response : Response :=
  ok_response (py_dict [("access_token", PStr "tok")]) "(token document)".

(** A configuration without defaults, and one with both. *)
Definition bare_config : Config :=
  {| TENANT_ID := "tenant-0"; CLIENT_ID := "client-0123";
     CLIENT_SECRET := "s3cret"; USER_OBJECT_ID := None; CAPACITY_ID := None;
     ENV_SOURCE := "/app/.env" |}.

Definition full_config : Config :=
  {| TENANT_ID := "tenant-0"; CLIENT_ID := "client-0123";
     CLIENT_SECRET := "s3cret"; USER_OBJECT_ID := Some "user-7";
     CAPACITY_ID := Some "cap-9"; ENV_SOURCE := "/app/.env" |}.

(** An answer of the workspaces endpoint. *)
Definition answer (code : Z) (why body : string) (j : option pyval) : Response :=
  {| status_code := code; reason := why;
     url := "https://api.fabric.microsoft.com/v1/workspaces";
     text := body; json := j |}.

(** An upstream that hands out the ids [ws-0], [ws-1], ... in turn. *)
Definition sequential_ids : transport Z :=
  fun n r =>
    match r with
    | POST_data _ _ => (token_response, n)
    | _ => (answer 201 "Created" "(created)"
              (Some (py_dict [("id", PStr ("ws-" ++ str_int n))])), n + 1)
    end.

(** The listing of workspaces [A] and [B], and a created pipeline with
    stages [Dev], [Test] and [Prod]. *)
Definition two_workspaces : pyval :=
  py_dict [("value",
            PList [py_dict [("displayName", PStr "A"); ("id", PStr "1")];
                   py_dict [("displayName", PStr "B"); ("id", PStr "2")]])].

Definition three_stages : pyval :=
  py_dict [("id", PStr "pl-1");
           ("stages",
            PList [py_dict [("displayName", PStr "Dev"); ("id", PStr "d1")];
                   py_dict [("displayName", PStr "Test"); ("id", PStr "t1")];
                   py_dict [("displayName", PStr "Prod"); ("id", PStr "p1")]])].

(** Answers of the identity endpoint: a refusal, a document whose token is
    empty, and a token behind a 302 status. *)
Definition token_denied : Response :=
  {| status_code := 401; reason := "Unauthorized";
     url := "https://login.microsoftonline.com/tenant-0/oauth2/v2.0/token";
     text := "invalid_client"; json := None |}.

Definition empty_token : Response :=
  ok_response (py_dict [("access_token", PStr EmptyString)]) "(token document)".

Definition redirected_token : Response :=
  {| status_code := 302; reason := "Found";
     url := "https://login.microsoftonline.com/tenant-0/oauth2/v2.0/token";
     text := "(token document)";
     json := Some (py_dict [("access_token", PStr "tok")]) |}.

(** * Properties *)

(** ** Running programs *)

Lemma run_bind (S A B : Type) (h : transport S) (p : prog A) (f : A -> prog B)
  (s : S) :
  run h (bind p f) s =
  match run h p s with
  | (Returned a, s1, tr1) =>
      let '(o, s2, tr2) := run h (f a) s1 in (o, s2, (tr1 ++ tr2)%list)
  | (Raised e, s1, tr1) => (Raised e, s1, tr1)
  end.
Proof.
  revert s. induction p as [a | e | r k IH]; intros s; simpl.
  - destruct (run h (f a) s) as [[o s2] tr2]. reflexivity.
  - reflexivity.
  - destruct (h s r) as [resp s1]. rewrite IH.
    destruct (run h (k resp) s1) as [[[a | e] s2] tr1]; simpl.
    + destruct (run h (f a) s2) as [[o s3] tr2]. reflexivity.
    + reflexivity.
Qed.

Lemma run_call (S A : Type) (h : transport S) (r : Request)
  (k : Response -> prog A) (s s1 : S) (resp : Response) :
  h s r = (resp, s1) ->
  run h (Call r k) s =
  let '(o, s2, tr) := run h (k resp) s1 in (o, s2, r :: tr).
Proof. intros E. simpl. rewrite E. reflexivity. Qed.

Lemma run_call_free (S A : Type) (h : transport S) (p : prog A) (s : S) :
  call_free p = true -> run h p s = (result_of p, s, []).
Proof. destruct p; simpl; intros E; [reflexivity | reflexivity | discriminate]. Qed.

Section TokenFacts.

Context `{PyLib}.
Variable cfg : Config.

(** What [get_access_token] does once the identity endpoint has answered. *)
Lemma token_continuation_call_free (resp : Response) :
  match get_access_token cfg with
  | Call r k => r = token_request cfg /\ call_free (k resp) = true
  | _ => False
  end.
Proof.
  simpl. split; [reflexivity |].
  unfold raise_for_status.
  destruct ((400 <=? status_code resp) && (status_code resp <? 500)); simpl;
    [reflexivity |].
  destruct ((500 <=? status_code resp) && (status_code resp <? 600)); simpl;
    [reflexivity |].
  unfold resp_json. destruct (json resp) as [data |]; simpl; [| reflexivity].
  destruct data; simpl; try reflexivity.
  match goal with |- context [truthy ?t] => destruct (truthy t) end;
    reflexivity.
Qed.

(** Acquiring a token is exactly one call, the token request, whatever the
    identity endpoint answers. *)
Lemma run_get_access_token (S : Type) (h : transport S) (s : S) :
  exists o, run h (get_access_token cfg) s =
            (o, snd (h s (token_request cfg)), [token_request cfg]).
Proof.
  pose proof (token_continuation_call_free (fst (h s (token_request cfg)))) as P.
  destruct (get_access_token cfg) as [a | e | r k] eqn:E; try contradiction.
  destruct P as [-> P]. simpl.
  destruct (h s (token_request cfg)) as [resp s1]; simpl in *.
  rewrite (run_call_free h _ s1 P). eexists. reflexivity.
Qed.

End TokenFacts.

(** ** Listing workspaces *)

Section Listing.

Context `{PyLib}.
Variable cfg : Config.
Variable S : Type.
Variable h : transport S.

(** C6: when the token was acquired and the upstream answers the listing
    with status 401, [get_existing_workspaces] returns the dictionary
    [{"error": "401 Unauthorized", "body": resp.text}]; it does not raise. *)
Theorem list_workspaces_401_returns (s s1 s2 : S) (tr : list Request)
  (token : pyval) (resp : Response) :
  run h (get_access_token cfg) s = (Returned token, s1, tr) ->
  h s1 (list_request token) = (resp, s2) ->
  status_code resp = 401 ->
  run h (get_existing_workspaces cfg) s =
  (Returned (py_dict [("error", PStr "401 Unauthorized");
                      ("body", PStr (text resp))]),
   s2, (tr ++ [list_request token])%list).
Proof.
  intros Htok Hup Hst.
  unfold get_existing_workspaces. rewrite run_bind, Htok.
  unfold requests_get. cbn [bind].
  erewrite run_call by exact Hup.
  rewrite Hst. reflexivity.
Qed.

End Listing.

(** ** Name-to-id mappings *)

Lemma lookup_dict_set (d : pydict) (k k' : string) (v : pyval) :
  dict_lookup (dict_set d (PStr k) v) (PStr k') =
  if String.eqb k k' then Some v else dict_lookup d (PStr k').
Proof.
  induction d as [| [kk vv] rest IH]; simpl.
  - reflexivity.
  - destruct (key_eqb kk (PStr k)) eqn:E; simpl.
    + destruct kk; simpl in E; try discriminate.
      apply String.eqb_eq in E. subst. simpl.
      destruct (String.eqb k k'); reflexivity.
    + rewrite IH. destruct (key_eqb kk (PStr k')) eqn:E'; [| reflexivity].
      destruct kk; simpl in E, E'; try discriminate.
      apply String.eqb_eq in E'. subst. rewrite String.eqb_sym, E. reflexivity.
Qed.

Lemma dict_set_fresh (d : pydict) (k v : pyval) :
  dict_lookup d k = None -> dict_set d k v = (d ++ [(k, v)])%list.
Proof.
  induction d as [| [kk vv] rest IH]; simpl; intros E.
  - reflexivity.
  - destruct (key_eqb kk k); [discriminate |]. rewrite IH by exact E. reflexivity.
Qed.

Lemma in_dict_set (d : pydict) (k v : pyval) (kv : pyval * pyval) :
  In kv (dict_set d k v) -> (exists v', In (fst kv, v') d) \/ fst kv = k.
Proof.
  induction d as [| [kk vv] rest IH]; simpl.
  - intros [<- | []]. right. reflexivity.
  - destruct (key_eqb kk k); simpl.
    + intros [<- | I]; left; [exists vv; left; reflexivity |].
      exists (snd kv). right. destruct kv. exact I.
    + intros [<- | I]; [left; exists vv; left; reflexivity |].
      destruct (IH I) as [[v' I'] | E]; [left; exists v'; right; exact I' | right; exact E].
Qed.

Lemma lookup_fold_store (pairs : list (string * pyval)) (acc : pydict) (k : string) :
  dict_lookup (fold_left store pairs acc) (PStr k) =
  match last_id k pairs with
  | Some v => Some v
  | None => dict_lookup acc (PStr k)
  end.
Proof.
  revert acc. induction pairs as [| [n i] rest IH]; intros acc; simpl.
  - reflexivity.
  - rewrite IH. destruct (last_id k rest); [reflexivity |].
    unfold store; simpl. rewrite lookup_dict_set.
    destruct (String.eqb n k); reflexivity.
Qed.

Lemma keys_fold_store (pairs : list (string * pyval)) (acc : pydict)
  (kv : pyval * pyval) :
  In kv (fold_left store pairs acc) ->
  (exists v', In (fst kv, v') acc)
  \/ (exists n, fst kv = PStr n /\ In n (map fst pairs)).
Proof.
  revert acc. induction pairs as [| [n i] rest IH]; intros acc; simpl.
  - intros I. left. exists (snd kv). destruct kv. exact I.
  - intros I. destruct (IH _ I) as [[v' I'] | [m [E I']]].
    + apply in_dict_set in I'. simpl in I'.
      destruct I' as [L | E]; [left; exact L |].
      right. exists n. split; [exact E | left; reflexivity].
    + right. exists m. split; [exact E | right; exact I'].
Qed.

Lemma fold_store_nodup (pairs : list (string * pyval)) (acc : pydict) :
  NoDup (map fst pairs) ->
  (forall n, In n (map fst pairs) -> dict_lookup acc (PStr n) = None) ->
  fold_left store pairs acc =
  (acc ++ map (fun p => (PStr (fst p), snd p)) pairs)%list.
Proof.
  revert acc. induction pairs as [| [n i] rest IH]; intros acc ND F; simpl.
  - rewrite app_nil_r. reflexivity.
  - inversion ND as [| ? ? NI ND']; subst.
    unfold store at 2; simpl.
    rewrite dict_set_fresh by (apply F; left; reflexivity).
    rewrite IH.
    + rewrite <- app_assoc. reflexivity.
    + exact ND'.
    + intros m I. rewrite <- dict_set_fresh by (apply F; left; reflexivity).
      rewrite lookup_dict_set.
      destruct (String.eqb n m) eqn:E.
      * apply String.eqb_eq in E. subst. contradiction.
      * apply F. right. exact I.
Qed.

Lemma fold_store_mapping (pairs : list (string * pyval)) :
  name_id_mapping pairs (fold_left store pairs []).
Proof.
  split; [| split].
  - intros k. rewrite lookup_fold_store. destruct (last_id k pairs); reflexivity.
  - intros kv I. destruct (keys_fold_store _ _ _ I) as [[v' []] | E]. exact E.
  - intros ND. rewrite fold_store_nodup; [reflexivity | exact ND | reflexivity].
Qed.

(** The comprehension over entries that carry names and ids never raises
    and performs the stores of [store] in order. *)
Lemma dict_comprehension_carries (entries : list pyval)
  (pairs : list (string * pyval)) (acc : pydict) :
  Forall2 carries entries pairs ->
  dict_comprehension "displayName" "id" entries acc =
  Ret (fold_left store pairs acc).
Proof.
  intros F. revert acc. induction F as [| e p es ps C F IH]; intros acc.
  - reflexivity.
  - destruct C as [d [-> [En Ei]]].
    cbn [dict_comprehension py_getitem]. rewrite En. cbn [bind].
    rewrite Ei. cbn [bind py_setitem hashable]. apply IH.
Qed.

Lemma raise_for_status_passes (resp : Response) :
  status_code resp < 400 \/ 600 <= status_code resp ->
  raise_for_status resp = Ret tt.
Proof.
  intros R. unfold raise_for_status.
  destruct (400 <=? status_code resp) eqn:E1, (status_code resp <? 500) eqn:E2,
           (500 <=? status_code resp) eqn:E3, (status_code resp <? 600) eqn:E4;
    simpl; try reflexivity; exfalso;
    rewrite ?Z.leb_le, ?Z.leb_gt, ?Z.ltb_lt, ?Z.ltb_ge in *; lia.
Qed.

Lemma raise_for_status_client (resp : Response) :
  400 <= status_code resp < 500 ->
  raise_for_status resp =
  Raise (HTTPError (str_int (status_code resp) ++ " Client Error: " ++ reason resp
                    ++ " for url: " ++ url resp)).
Proof.
  intros [L U]. unfold raise_for_status.
  apply Z.leb_le in L. apply Z.ltb_lt in U. rewrite L, U. reflexivity.
Qed.

Lemma raise_for_status_server (resp : Response) :
  500 <= status_code resp < 600 ->
  raise_for_status resp =
  Raise (HTTPError (str_int (status_code resp) ++ " Server Error: " ++ reason resp
                    ++ " for url: " ++ url resp)).
Proof.
  intros [L U]. unfold raise_for_status.
  replace (status_code resp <? 500) with false by (symmetry; apply Z.ltb_ge; lia).
  rewrite andb_false_r.
  apply Z.leb_le in L. apply Z.ltb_lt in U. rewrite L, U. reflexivity.
Qed.

Section ListingMapping.

Context `{PyLib}.
Variable cfg : Config.
Variable S : Type.
Variable h : transport S.

(** C3: when the upstream answers the listing with a 2xx status and a
    document whose [value] entries carry [displayName] and [id],
    [get_existing_workspaces] returns the displayName-to-id mapping built
    from that array; an empty or missing array gives the empty mapping. *)
Theorem list_workspaces_mapping (s s1 s2 : S) (tr : list Request)
  (token : pyval) (resp : Response) (data : pydict) (entries : list pyval)
  (pairs : list (string * pyval)) :
  run h (get_access_token cfg) s = (Returned token, s1, tr) ->
  h s1 (list_request token) = (resp, s2) ->
  200 <= status_code resp < 300 ->
  json resp = Some (PDict data) ->
  array_at "value" data entries ->
  Forall2 carries entries pairs ->
  exists m,
    run h (get_existing_workspaces cfg) s =
      (Returned (PDict m), s2, (tr ++ [list_request token])%list)
    /\ name_id_mapping pairs m
    /\ (entries = [] -> m = []).
Proof.
  intros Htok Hup Hst Hjs Harr Hent.
  exists (fold_left store pairs []). split; [| split].
  - unfold get_existing_workspaces. rewrite run_bind, Htok.
    unfold requests_get. cbn [bind].
    erewrite run_call by exact Hup.
    replace (status_code resp =? 401) with false by (symmetry; apply Z.eqb_neq; lia).
    rewrite raise_for_status_passes by lia.
    unfold resp_json. rewrite Hjs. cbn [bind py_get].
    destruct Harr as [E | [E ->]]; rewrite E; cbn [bind py_iter].
    + rewrite (dict_comprehension_carries [] Hent). reflexivity.
    + inversion Hent; subst. reflexivity.
  - apply fold_store_mapping.
  - intros ->. inversion Hent; subst. reflexivity.
Qed.

End ListingMapping.

(** ** Token acquisition *)

Section TokenOutcome.

Context `{PyLib}.
Variable cfg : Config.

Lemma run_token_answer (S : Type) (h : transport S) (s s1 : S) (resp : Response) :
  h s (token_request cfg) = (resp, s1) ->
  run h (get_access_token cfg) s =
  (result_of (after_token_response cfg resp), s1, [token_request cfg]).
Proof.
  intros E.
  pose proof (token_continuation_call_free cfg resp) as P.
  unfold after_token_response.
  destruct (get_access_token cfg) as [a | e | r k]; try contradiction.
  destruct P as [-> P]. simpl. rewrite E.
  rewrite (run_call_free h _ s1 P). reflexivity.
Qed.

Lemma after_token_error (resp : Response) :
  400 <= status_code resp < 600 ->
  exists e, after_token_response cfg resp =
            Raise (RuntimeError (token_failure_message cfg resp e)).
Proof.
  intros R. unfold after_token_response. cbn [get_access_token requests_post_data bind].
  destruct (Z_lt_ge_dec (status_code resp) 500) as [L | G].
  - rewrite raise_for_status_client by lia. eexists. reflexivity.
  - rewrite raise_for_status_server by lia. eexists. reflexivity.
Qed.

Lemma after_token_passed (resp : Response) :
  ~ 400 <= status_code resp < 600 ->
  after_token_response cfg resp =
  (data <- resp_json resp ;;
   token <- py_get data "access_token" PNone ;;
   if negb (truthy token) then
     Raise (RuntimeError ("No access_token in response: " ++ json_dumps data 2))
   else Ret token).
Proof.
  intros R. unfold after_token_response. cbn [get_access_token requests_post_data bind].
  rewrite raise_for_status_passes by lia. reflexivity.
Qed.

End TokenOutcome.

Lemma after_token_secret `{PyLib} (cfg : Config) (secret : string) (resp : Response) :
  after_token_response (with_secret cfg secret) resp = after_token_response cfg resp.
Proof. reflexivity. Qed.

(** C4, as the code has it: [get_access_token] makes one call and returns
    the token exactly when the answer has no 4xx or 5xx status and its
    JSON object holds a truthy [access_token]; a 4xx or 5xx answer raises
    [RuntimeError] with the status and the raw body in the message; an
    object without a truthy [access_token] raises [RuntimeError] with the
    whole parsed document; and the outcome, message included, is the same
    for every client secret that draws the same answer. *)
Theorem get_access_token_outcome `{PyLib} (cfg : Config) (S : Type)
  (h : transport S) (s s1 : S) (resp : Response) :
  h s (token_request cfg) = (resp, s1) ->
  exists o,
    run h (get_access_token cfg) s = (o, s1, [token_request cfg])
    /\ (forall t, o = Returned t <->
          ~ 400 <= status_code resp < 600
          /\ exists d, json resp = Some (PDict d)
                       /\ dict_lookup d (PStr "access_token") = Some t
                       /\ truthy t = true)
    /\ (400 <= status_code resp < 600 ->
        exists e, o = Raised (RuntimeError (token_failure_message cfg resp e)))
    /\ (forall d, ~ 400 <= status_code resp < 600 ->
          json resp = Some (PDict d) ->
          (forall t, dict_lookup d (PStr "access_token") = Some t ->
                     truthy t = false) ->
          o = Raised (RuntimeError ("No access_token in response: "
                                    ++ json_dumps (PDict d) 2)))
    /\ (forall (secret : string) (S' : Type) (h' : transport S') (s' s1' : S'),
          h' s' (token_request (with_secret cfg secret)) = (resp, s1') ->
          fst (fst (run h' (get_access_token (with_secret cfg secret)) s')) = o).
Proof.
  intros E. exists (result_of (after_token_response cfg resp)).
  split; [apply run_token_answer; exact E |].
  split; [| split; [| split]].
  - intros t. split.
    + intros R.
      assert (N : ~ 400 <= status_code resp < 600).
      { intros B. destruct (after_token_error cfg resp B) as [e Ee].
        rewrite Ee in R. discriminate. }
      split; [exact N |].
      rewrite (after_token_passed cfg resp N) in R. unfold resp_json in R.
      destruct (json resp) as [data |]; [| discriminate].
      destruct data as [| | | | | d]; try discriminate.
      exists d. split; [reflexivity |].
      cbn [bind py_get] in R.
      destruct (dict_lookup d (PStr "access_token")) as [v |];
        [| discriminate].
      destruct (truthy v) eqn:T; [| discriminate].
      simpl in R. injection R as ->. split; [reflexivity | exact T].
    + intros [N [d [J [L T]]]].
      rewrite (after_token_passed cfg resp N). unfold resp_json. rewrite J.
      cbn [bind py_get]. rewrite L, T. reflexivity.
  - intros B. destruct (after_token_error cfg resp B) as [e Ee].
    exists e. rewrite Ee. reflexivity.
  - intros d N J F.
    rewrite (after_token_passed cfg resp N). unfold resp_json. rewrite J.
    cbn [bind py_get].
    destruct (dict_lookup d (PStr "access_token")) as [v |].
    + rewrite (F v eq_refl). reflexivity.
    + reflexivity.
  - intros secret S' h' s' s1' E'.
    rewrite (run_token_answer _ h' s' E'). simpl.
    rewrite after_token_secret. reflexivity.
Qed.

Lemma resolved_truthy (arg default : option string) :
  truthy (resolved arg default) = true ->
  exists v, resolved arg default = PStr v /\ v <> EmptyString.
Proof.
  unfold resolved, py_or.
  destruct arg as [a |], default as [d |]; simpl.
  all: repeat match goal with
         | |- context [String.eqb ?x EmptyString] =>
             destruct (String.eqb_spec x EmptyString); simpl
         end; intros T; try discriminate; eauto.
Qed.

(** ** Defaulted arguments *)

Section Defaults.

Context `{PyLib}.
Variable cfg : Config.

(** C1, as the code has it: with the argument absent and no default in the
    configuration, [create_workspace], [assign_workspace_admin] and
    [assign_pipeline_admin] return an error dictionary whose message names
    the argument and the missing [.env] key, and make no call at all:
    neither the token request nor an upstream request. *)
Theorem missing_default_returns_error (S : Type) (h : transport S) (s : S) :
  (CAPACITY_ID cfg = None ->
   forall name,
     run h (create_workspace cfg name None) s =
     (Returned (error_result
        "capacity_id not provided and CAPACITY_ID missing in .env"), s, []))
  /\ (USER_OBJECT_ID cfg = None ->
      forall id,
        run h (assign_workspace_admin cfg id None) s =
        (Returned (error_result
           "user_object_id not provided and USER_OBJECT_ID missing in .env"), s, [])
        /\ run h (assign_pipeline_admin cfg id None) s =
           (Returned (error_result
              "user_object_id not provided and USER_OBJECT_ID missing in .env"), s, [])).
Proof.
  split.
  - intros E name. unfold create_workspace. rewrite E. reflexivity.
  - intros E id. unfold assign_workspace_admin, assign_pipeline_admin.
    rewrite E. split; reflexivity.
Qed.

Lemma defaulted_trace (S : Type) (h : transport S) (s : S)
  (wrap : string -> pyval) (v : string) (url : string)
  (finish : Response -> prog pyval) :
  v <> EmptyString ->
  (forall resp, call_free (finish resp) = true) ->
  Forall (carries_value wrap)
    (snd (run h (token <- get_access_token cfg ;;
                 Call (POST_json url (wrap v) (_headers token)) finish) s)).
Proof.
  intros NE CF. rewrite run_bind.
  destruct (run_get_access_token cfg h s) as [o ->].
  destruct o as [token | e]; simpl.
  - destruct (h (snd (h s (token_request cfg))) _) as [resp s2].
    rewrite (run_call_free h _ s2 (CF resp)). simpl.
    repeat constructor. exists v. split; [exact NE | reflexivity].
  - repeat constructor.
Qed.

End Defaults.

(** ** The shape of a forwarding tool *)

Lemma call_free_bind (A B : Type) (p : prog A) (f : A -> prog B) :
  call_free p = true -> (forall a, call_free (f a) = true) ->
  call_free (bind p f) = true.
Proof. destruct p; simpl; intros C F; [apply F | reflexivity | discriminate]. Qed.

Lemma call_free_py_getitem (v : pyval) (key : string) :
  call_free (py_getitem v key) = true.
Proof.
  destruct v; try reflexivity. simpl.
  destruct (dict_lookup d (PStr key)); reflexivity.
Qed.

Lemma call_free_py_setitem (d : pydict) (k v : pyval) :
  call_free (py_setitem d k v) = true.
Proof. unfold py_setitem. destruct (hashable k); reflexivity. Qed.

Lemma call_free_py_get (v : pyval) (key : string) (default : pyval) :
  call_free (py_get v key default) = true.
Proof. destruct v; reflexivity. Qed.

Lemma call_free_py_iter (v : pyval) : call_free (py_iter v) = true.
Proof. destruct v; reflexivity. Qed.

Lemma call_free_resp_json (resp : Response) : call_free (resp_json resp) = true.
Proof. unfold resp_json. destruct (json resp); reflexivity. Qed.

Lemma call_free_raise_for_status (resp : Response) :
  call_free (raise_for_status resp) = true.
Proof.
  unfold raise_for_status.
  destruct ((400 <=? status_code resp) && (status_code resp <? 500));
    [reflexivity |].
  destruct ((500 <=? status_code resp) && (status_code resp <? 600));
    reflexivity.
Qed.

Lemma call_free_dict_comprehension (kname vname : string) (items : list pyval)
  (acc : pydict) :
  call_free (dict_comprehension kname vname items acc) = true.
Proof.
  revert acc. induction items as [| x rest IH]; intros acc; simpl.
  - reflexivity.
  - apply call_free_bind; [apply call_free_py_getitem | intros k].
    apply call_free_bind; [apply call_free_py_getitem | intros v].
    apply call_free_bind; [apply call_free_py_setitem | intros acc'].
    apply IH.
Qed.

Create HintDb call_free.
#[local] Hint Resolve call_free_py_getitem call_free_py_setitem call_free_py_get
  call_free_py_iter call_free_resp_json call_free_raise_for_status
  call_free_dict_comprehension : call_free.

Ltac call_free_steps :=
  cbn [bind];
  repeat first
    [ reflexivity
    | solve [auto with call_free]
    | apply call_free_bind; [solve [auto with call_free] | intros ?]
    | match goal with
      | |- call_free (if ?b then _ else _) = true => destruct b
      end ].

Section Forwarding.

Context `{PyLib}.
Variable cfg : Config.

Lemma run_forward (S : Type) (h : transport S) (s s1 : S) (tr : list Request)
  (token : pyval) (req : pyval -> Request) (finish : Response -> prog pyval) :
  run h (get_access_token cfg) s = (Returned token, s1, tr) ->
  (forall resp, call_free (finish resp) = true) ->
  run h (forward cfg req finish) s =
  (result_of (finish (fst (h s1 (req token)))), snd (h s1 (req token)),
   (tr ++ [req token])%list).
Proof.
  intros Htok CF. unfold forward. rewrite run_bind, Htok. cbn [run].
  destruct (h s1 (req token)) as [resp s2]. simpl fst. simpl snd.
  rewrite (run_call_free h _ s2 (CF resp)). reflexivity.
Qed.

Lemma run_forward_raised (S : Type) (h : transport S) (s s1 : S)
  (tr : list Request) (e : exn) (req : pyval -> Request)
  (finish : Response -> prog pyval) :
  run h (get_access_token cfg) s = (Raised e, s1, tr) ->
  run h (forward cfg req finish) s = (Raised e, s1, tr).
Proof. intros Htok. unfold forward. rewrite run_bind, Htok. reflexivity. Qed.

(** Every tool whose arguments resolve is one token acquisition followed
    by one authorized call; a post tool passes through every answer whose
    status is not its success status. *)
Lemma invoke_forward (c : tool_call) :
  resolves cfg c = true ->
  exists req finish,
    invoke cfg c = forward cfg req finish
    /\ (forall token, authorization (req token) = Some ("Bearer " ++ py_str token))
    /\ (forall resp, call_free (finish resp) = true)
    /\ (c <> call_get_existing_workspaces ->
        forall resp, success_status c <> Some (status_code resp) ->
                     finish resp = Ret (passthrough resp)).
Proof.
  intros R.
  destruct c; cbn [invoke resolves] in *.
  - eexists _, _. split; [reflexivity |]. split; [reflexivity |]. split.
    + intros resp. call_free_steps.
    + intros N. contradiction N. reflexivity.
  - eexists _, _. split; [| split; [| split]].
    + unfold create_workspace. fold (resolved capacity_id (CAPACITY_ID cfg)).
      rewrite R. reflexivity.
    + reflexivity.
    + intros resp. call_free_steps.
    + intros _ resp N. cbn [success_status] in N. cbn [bind].
      destruct (Z.eqb_spec (status_code resp) 201) as [E | _];
        [rewrite E in N; contradiction N; reflexivity | reflexivity].
  - eexists _, _. split; [| split; [| split]].
    + unfold assign_workspace_admin.
      fold (resolved user_object_id (USER_OBJECT_ID cfg)).
      rewrite R. reflexivity.
    + reflexivity.
    + intros resp. call_free_steps.
    + reflexivity.
  - eexists _, _. split; [reflexivity |]. split; [reflexivity |]. split.
    + intros resp. call_free_steps.
    + intros _ resp N. cbn [success_status] in N. cbn [bind].
      destruct (Z.eqb_spec (status_code resp) 201) as [E | _];
        [rewrite E in N; contradiction N; reflexivity | reflexivity].
  - eexists _, _. split; [reflexivity |]. split; [reflexivity |]. split.
    + intros resp. call_free_steps.
    + reflexivity.
  - eexists _, _. split; [reflexivity |]. split; [reflexivity |]. split.
    + intros resp. call_free_steps.
    + reflexivity.
  - eexists _, _. split; [reflexivity |]. split; [reflexivity |]. split.
    + intros resp. call_free_steps.
    + intros _ resp N. cbn [success_status] in N. cbn [bind].
      destruct (Z.eqb_spec (status_code resp) 201) as [E | _];
        [rewrite E in N; contradiction N; reflexivity | reflexivity].
  - eexists _, _. split; [reflexivity |]. split; [reflexivity |]. split.
    + intros resp. call_free_steps.
    + reflexivity.
  - eexists _, _. split; [| split; [| split]].
    + unfold assign_pipeline_admin.
      fold (resolved user_object_id (USER_OBJECT_ID cfg)).
      rewrite R. reflexivity.
    + reflexivity.
    + intros resp. call_free_steps.
    + reflexivity.
Qed.

End Forwarding.

Section Passthrough.

Context `{PyLib}.
Variable cfg : Config.
Variable S : Type.
Variable h : transport S.

(** C2, as the code has it: once the token is acquired, every tool that
    posts to Fabric makes one authorized call and, when the answer's
    status is not the tool's success status, returns
    [{"status": code, "body": text}] with the raw body and does not raise;
    [get_existing_workspaces] instead raises [HTTPError] for a 4xx or 5xx
    answer other than 401. *)
Theorem upstream_failure_passed_through (s s1 : S) (tr : list Request)
  (token : pyval) :
  run h (get_access_token cfg) s = (Returned token, s1, tr) ->
  (forall c,
     c <> call_get_existing_workspaces ->
     resolves cfg c = true ->
     exists req,
       authorization req = Some ("Bearer " ++ py_str token)
       /\ snd (run h (invoke cfg c) s) = (tr ++ [req])%list
       /\ (success_status c <> Some (status_code (fst (h s1 req))) ->
           fst (fst (run h (invoke cfg c) s))
           = Returned (passthrough (fst (h s1 req)))))
  /\ (forall resp s2,
        h s1 (list_request token) = (resp, s2) ->
        400 <= status_code resp < 600 ->
        status_code resp <> 401 ->
        exists msg,
          run h (get_existing_workspaces cfg) s =
          (Raised (HTTPError msg), s2, (tr ++ [list_request token])%list)).
Proof.
  intros Htok. split.
  - intros c NL R.
    destruct (invoke_forward cfg c R) as [req [finish [E [A [CF P]]]]].
    exists (req token). rewrite E, (run_forward cfg h s req finish Htok CF).
    split; [apply A |]. split; [reflexivity |].
    intros N. simpl. rewrite (P NL _ N). reflexivity.
  - intros resp s2 Hup B N.
    unfold get_existing_workspaces. rewrite run_bind, Htok.
    unfold requests_get. cbn [bind].
    erewrite run_call by exact Hup.
    replace (status_code resp =? 401) with false
      by (symmetry; apply Z.eqb_neq; exact N).
    destruct (Z_lt_ge_dec (status_code resp) 500) as [L | G].
    + rewrite raise_for_status_client by lia. eexists. reflexivity.
    + rewrite raise_for_status_server by lia. eexists. reflexivity.
Qed.

(** C8, as the code has it: a tool call whose arguments resolve begins
    with exactly one token request, made afresh at every invocation; when
    the token is acquired exactly one upstream call follows, authorized
    with that very token, and when acquisition fails the tool raises
    without an upstream call. *)
Theorem token_precedes_upstream (s : S) (c : tool_call) :
  resolves cfg c = true ->
  exists o s1,
    run h (get_access_token cfg) s = (o, s1, [token_request cfg])
    /\ match o with
       | Returned token =>
           exists req,
             authorization req = Some ("Bearer " ++ py_str token)
             /\ snd (run h (invoke cfg c) s) = [token_request cfg; req]
       | Raised e =>
           run h (invoke cfg c) s = (Raised e, s1, [token_request cfg])
       end
    /\ (forall c' r s',
          resolves cfg c' = true ->
          fst (run h (invoke cfg c) s) = (Returned r, s') ->
          exists rest,
            snd (run h (invoke cfg c ;;; invoke cfg c') s) =
            (snd (run h (invoke cfg c) s) ++ token_request cfg :: rest)%list).
Proof.
  intros R.
  destruct (run_get_access_token cfg h s) as [o Htok].
  exists o, (snd (h s (token_request cfg))). split; [exact Htok |].
  destruct (invoke_forward cfg c R) as [req [finish [E [A [CF _]]]]].
  split.
  - destruct o as [token | e].
    + exists (req token). split; [apply A |].
      rewrite E, (run_forward cfg h s req finish Htok CF). reflexivity.
    + rewrite E. apply run_forward_raised. exact Htok.
  - intros c' r s' R' E1. rewrite run_bind.
    destruct (run h (invoke cfg c) s) as [[o1 s1'] tr1]. simpl in E1.
    injection E1 as -> ->.
    destruct (invoke_forward cfg c' R') as [req' [finish' [E' _]]].
    rewrite E'. unfold forward. rewrite run_bind.
    destruct (run_get_access_token cfg h s') as [o' ->].
    destruct o' as [token' | e'].
    + destruct (run h (Call (req' token') finish') _) as [[o2 s2] tr2].
      exists tr2. reflexivity.
    + exists []. reflexivity.
Qed.

End Passthrough.

(** ** Creating workspaces and pipelines *)

Section Creating.

Context `{PyLib}.
Variable cfg : Config.
Variable S : Type.
Variable h : transport S.

Lemma run_create_workspace (s s1 s2 : S) (tr : list Request) (token : pyval)
  (resp : Response) (name cid : string) (capacity_id : option string) :
  resolved capacity_id (CAPACITY_ID cfg) = PStr cid ->
  cid <> EmptyString ->
  run h (get_access_token cfg) s = (Returned token, s1, tr) ->
  h s1 (workspace_request name cid token) = (resp, s2) ->
  snd (run h (create_workspace cfg name capacity_id) s)
  = (tr ++ [workspace_request name cid token])%list
  /\ (status_code resp = 201 ->
      forall j, json resp = Some (PDict j) ->
        run h (create_workspace cfg name capacity_id) s =
        (Returned (py_dict [("workspace_id", get_or_none j "id")]), s2,
         (tr ++ [workspace_request name cid token])%list)).
Proof.
  intros Rv NE Htok Hup.
  assert (T : truthy (resolved capacity_id (CAPACITY_ID cfg)) = true).
  { rewrite Rv. simpl. destruct (String.eqb_spec cid EmptyString);
      [contradiction | reflexivity]. }
  unfold create_workspace. fold (resolved capacity_id (CAPACITY_ID cfg)).
  rewrite T, Rv. cbn [negb]. rewrite run_bind, Htok.
  unfold requests_post_json. cbn [bind].
  fold (workspace_payload name cid). fold (workspace_request name cid token).
  erewrite run_call by exact Hup.
  split.
  - destruct (run h _ s2) as [[o s3] tr2] eqn:E.
    assert (tr2 = []) as ->; [| reflexivity].
    rewrite run_call_free in E by call_free_steps.
    injection E as _ _ <-. reflexivity.
  - intros St j J. rewrite St. cbn [Z.eqb Pos.eqb].
    unfold resp_json. rewrite J. reflexivity.
Qed.

(** C7: with no [capacity_id] argument and a non-empty configured
    default, the body [create_workspace] posts has the default as its
    [capacityId]; and on a 201 answer whose body is a JSON object the tool
    returns [{"workspace_id": id}] with the [id] of that object. *)
Theorem create_workspace_uses_default (s s1 s2 : S) (tr : list Request)
  (token : pyval) (resp : Response) (name default : string) :
  CAPACITY_ID cfg = Some default ->
  default <> EmptyString ->
  run h (get_access_token cfg) s = (Returned token, s1, tr) ->
  h s1 (workspace_request name default token) = (resp, s2) ->
  snd (run h (create_workspace cfg name None) s)
  = (tr ++ [POST_json (FABRIC_BASE ++ "/workspaces")
              (py_dict [("displayName", PStr name);
                        ("capacityId", PStr default)])
              (_headers token)])%list
  /\ (status_code resp = 201 ->
      forall j i,
        json resp = Some (PDict j) ->
        dict_lookup j (PStr "id") = Some i ->
        run h (create_workspace cfg name None) s =
        (Returned (py_dict [("workspace_id", i)]), s2,
         (tr ++ [workspace_request name default token])%list)).
Proof.
  intros D NE Htok Hup.
  assert (Rv : resolved None (CAPACITY_ID cfg) = PStr default).
  { rewrite D. reflexivity. }
  destruct (@run_create_workspace s s1 s2 tr token resp name default None
              Rv NE Htok Hup) as [T R].
  split; [exact T |].
  intros St j i J L. rewrite (R St j J). unfold get_or_none. rewrite L.
  reflexivity.
Qed.

(** C9: [create_workspace] is not idempotent.  When the upstream answers
    two calls that have the same arguments with 201 and two distinct ids,
    the two results are [{"workspace_id": i1}] and [{"workspace_id": i2}],
    which differ: the result comes from the answer, not from the
    arguments. *)
Theorem create_workspace_not_idempotent (s s1 s2 s3 s4 : S)
  (tr1 tr2 : list Request) (token1 token2 : pyval) (resp1 resp2 : Response)
  (name cid : string) (capacity_id : option string) (j1 j2 : pydict)
  (i1 i2 : pyval) :
  resolved capacity_id (CAPACITY_ID cfg) = PStr cid ->
  cid <> EmptyString ->
  run h (get_access_token cfg) s = (Returned token1, s1, tr1) ->
  h s1 (workspace_request name cid token1) = (resp1, s2) ->
  run h (get_access_token cfg) s2 = (Returned token2, s3, tr2) ->
  h s3 (workspace_request name cid token2) = (resp2, s4) ->
  status_code resp1 = 201 -> json resp1 = Some (PDict j1) ->
  dict_lookup j1 (PStr "id") = Some i1 ->
  status_code resp2 = 201 -> json resp2 = Some (PDict j2) ->
  dict_lookup j2 (PStr "id") = Some i2 ->
  i1 <> i2 ->
  fst (fst (run h (create_workspace_twice cfg name capacity_id) s))
  = Returned (py_dict [("workspace_id", i1)], py_dict [("workspace_id", i2)])
  /\ py_dict [("workspace_id", i1)] <> py_dict [("workspace_id", i2)].
Proof.
  intros Rv NE Htok1 Hup1 Htok2 Hup2 St1 J1 L1 St2 J2 L2 D.
  destruct (@run_create_workspace s s1 s2 tr1 token1 resp1 name cid capacity_id
              Rv NE Htok1 Hup1) as [_ R1].
  destruct (@run_create_workspace s2 s3 s4 tr2 token2 resp2 name cid capacity_id
              Rv NE Htok2 Hup2) as [_ R2].
  specialize (R1 St1 j1 J1). specialize (R2 St2 j2 J2).
  unfold get_or_none in R1, R2. rewrite L1 in R1. rewrite L2 in R2.
  split.
  - unfold create_workspace_twice. rewrite run_bind, R1.
    rewrite run_bind, R2. reflexivity.
  - intros E. apply D. injection E as E. exact E.
Qed.

(** C5: [create_deployment_pipeline] posts a body whose [stages] array
    holds, for each given name [s] in the given order, the object
    [{"displayName": s, "description": "s stage", "isPublic": false}]; and
    on a 201 answer whose stages carry names and ids it returns the
    pipeline id with the mapping from each returned stage's name to the id
    it was given. *)
Theorem create_deployment_pipeline_stages (s s1 s2 : S) (tr : list Request)
  (token : pyval) (resp : Response) (name description : string)
  (stages : list string) :
  run h (get_access_token cfg) s = (Returned token, s1, tr) ->
  h s1 (pipeline_request name description stages token) = (resp, s2) ->
  snd (run h (create_deployment_pipeline cfg name description stages) s)
  = (tr ++ [pipeline_request name description stages token])%list
  /\ (status_code resp = 201 ->
      forall p entries pairs,
        json resp = Some (PDict p) ->
        array_at "stages" p entries ->
        Forall2 carries entries pairs ->
        exists m,
          run h (create_deployment_pipeline cfg name description stages) s =
          (Returned (py_dict [("pipeline_id", get_or_none p "id");
                              ("stages", PDict m)]),
           s2, (tr ++ [pipeline_request name description stages token])%list)
          /\ name_id_mapping pairs m).
Proof.
  intros Htok Hup.
  unfold create_deployment_pipeline. rewrite run_bind, Htok.
  unfold requests_post_json. cbn [bind].
  change (POST_json _ _ (_headers token))
    with (pipeline_request name description stages token).
  erewrite run_call by exact Hup.
  split.
  - destruct (run h _ s2) as [[o s3] tr2] eqn:E.
    assert (tr2 = []) as ->; [| reflexivity].
    rewrite run_call_free in E by call_free_steps.
    injection E as _ _ <-. reflexivity.
  - intros St p entries pairs J Harr Hent.
    exists (fold_left store pairs []). split; [| apply fold_store_mapping].
    rewrite St. cbn [Z.eqb Pos.eqb].
    unfold resp_json. rewrite J. cbn [bind py_get].
    destruct Harr as [E | [E ->]]; rewrite E; cbn [bind py_iter].
    + rewrite (dict_comprehension_carries [] Hent). reflexivity.
    + inversion Hent; subst. reflexivity.
Qed.

End Creating.

(** ** Closed examples *)

#[local] Existing Instance sample_lib.

Lemma substring_whole (b : string) : substring 0 (String.length b) b = b.
Proof. induction b as [| c b IH]; simpl; [reflexivity | rewrite IH; reflexivity]. Qed.

Lemma substring_suffix (a b : string) :
  substring (String.length a) (String.length b) (a ++ b) = b.
Proof. induction a as [| c a IH]; simpl; [apply substring_whole | exact IH]. Qed.

Lemma length_append (a b : string) :
  String.length (a ++ b) = (String.length a + String.length b)%nat.
Proof. induction a as [| c a IH]; simpl; [reflexivity | rewrite IH; reflexivity]. Qed.

(** C1, the message: with no argument and no default, [create_workspace]
    returns an error whose text is not of the form
    [<field> not provided and no default configured]. *)
Lemma missing_default_message_differs :
  exists msg,
    run (scripted token_response) (create_workspace bare_config "ws" None) []
    = (Returned (error_result msg), [], [])
    /\ forall field,
         msg <> field ++ " not provided and no default configured".
Proof.
  eexists. split; [reflexivity |].
  intros field E.
  pose proof (f_equal String.length E) as L.
  rewrite length_append in L. simpl in L.
  assert (Lf : String.length field = 17%nat) by lia.
  pose proof (substring_suffix field " not provided and no default configured") as Sx.
  rewrite <- E, Lf in Sx. vm_compute in Sx. discriminate Sx.
Qed.

Lemma missing_default_returns_error_witness :
  run (scripted token_response) (create_workspace bare_config "ws" None) []
  = (Returned (error_result
       "capacity_id not provided and CAPACITY_ID missing in .env"), [], [])
  /\ run (scripted token_response) (assign_pipeline_admin bare_config "pl" None) []
     = (Returned (error_result
          "user_object_id not provided and USER_OBJECT_ID missing in .env"), [], []).
Proof.
  destruct (missing_default_returns_error bare_config (scripted token_response) [])
    as [W U].
  split; [exact (W eq_refl "ws") | exact (proj2 (U eq_refl "pl"))].
Defined.

(** C2, the listing: a 500 answer to [get_existing_workspaces] is raised as
    [HTTPError], not returned as [{"status": 500, "body": ...}]. *)
Lemma list_workspaces_500_raises :
  run (scripted token_response) (get_existing_workspaces bare_config)
    [token_response; answer 500 "Internal Server Error" "boom" None]
  = (Raised (HTTPError
       "500 Server Error: Internal Server Error for url: https://api.fabric.microsoft.com/v1/workspaces"),
     [],
     [token_request bare_config; list_request (PStr "tok")])
  /\ fst (fst (run (scripted token_response) (get_existing_workspaces bare_config)
                 [token_response; answer 500 "Internal Server Error" "boom" None]))
     <> Returned (passthrough (answer 500 "Internal Server Error" "boom" None)).
Proof. split; [reflexivity | discriminate]. Qed.

Lemma upstream_failure_passed_through_witness :
  fst (fst (run (scripted token_response)
              (create_workspace full_config "ws" None)
              [token_response; answer 409 "Conflict" "name taken" None]))
  = Returned (py_dict [("status", PInt 409); ("body", PStr "name taken")]).
Proof.
  destruct (upstream_failure_passed_through full_config (scripted token_response)
              [token_response; answer 409 "Conflict" "name taken" None]
              (s1 := [answer 409 "Conflict" "name taken" None])
              (tr := [token_request full_config]) (token := PStr "tok") eq_refl)
    as [P _].
  destruct (P (call_create_workspace "ws" None)) as [req [A [T R]]];
    [discriminate | reflexivity |].
  simpl in T. injection T as <-.
  apply R. simpl. discriminate.
Defined.

Ltac carried :=
  repeat first
    [ apply Forall2_nil
    | apply Forall2_cons; [eexists; repeat split; reflexivity |] ].

Lemma list_workspaces_mapping_witness :
  run (scripted token_response) (get_existing_workspaces bare_config)
    [token_response; ok_response two_workspaces "(listing)"]
  = (Returned (py_dict [("A", PStr "1"); ("B", PStr "2")]), [],
     [token_request bare_config; list_request (PStr "tok")]).
Proof.
  destruct (list_workspaces_mapping bare_config (scripted token_response)
              [token_response; ok_response two_workspaces "(listing)"]
              (s1 := [ok_response two_workspaces "(listing)"]) (s2 := [])
              (tr := [token_request bare_config]) (token := PStr "tok")
              (resp := ok_response two_workspaces "(listing)")
              (data := [(PStr "value",
                         PList [py_dict [("displayName", PStr "A"); ("id", PStr "1")];
                                py_dict [("displayName", PStr "B"); ("id", PStr "2")]])])
              (entries := [py_dict [("displayName", PStr "A"); ("id", PStr "1")];
                           py_dict [("displayName", PStr "B"); ("id", PStr "2")]])
              (pairs := [("A", PStr "1"); ("B", PStr "2")])
              eq_refl eq_refl)
    as [m [R [[_ [_ M]] _]]].
  - simpl. lia.
  - reflexivity.
  - left. reflexivity.
  - carried.
  - rewrite R, M; [reflexivity |].
    repeat constructor; simpl; intuition discriminate.
Defined.

(** C4, the success condition: a 200 answer whose [access_token] field is
    the empty string yields no token, and a 302 answer with a token yields
    it. *)
Lemma empty_access_token_is_refused :
  status_code empty_token = 200
  /\ json empty_token = Some (py_dict [("access_token", PStr EmptyString)])
  /\ (forall t,
        fst (fst (run (scripted token_response) (get_access_token bare_config)
                    [empty_token])) <> Returned t)
  /\ fst (fst (run (scripted token_response) (get_access_token bare_config)
                 [redirected_token])) = Returned (PStr "tok").
Proof.
  split; [reflexivity |]. split; [reflexivity |].
  split; [intros t; discriminate | reflexivity].
Qed.

Lemma get_access_token_outcome_witness :
  exists e,
    run (scripted token_response) (get_access_token bare_config) [token_denied]
    = (Raised (RuntimeError (token_failure_message bare_config token_denied e)),
       [], [token_request bare_config]).
Proof.
  destruct (get_access_token_outcome bare_config (scripted token_response)
              [token_denied] (s1 := []) (resp := token_denied) eq_refl)
    as [o [R [_ [Err _]]]].
  destruct Err as [e ->]; [simpl; lia |].
  exists e. exact R.
Defined.

Lemma create_deployment_pipeline_stages_witness :
  run (scripted token_response)
    (create_deployment_pipeline bare_config "pipe" "demo" ["Dev"; "Test"; "Prod"])
    [token_response; answer 201 "Created" "(pipeline)" (Some three_stages)]
  = (Returned (py_dict [("pipeline_id", PStr "pl-1");
                        ("stages", py_dict [("Dev", PStr "d1");
                                            ("Test", PStr "t1");
                                            ("Prod", PStr "p1")])]),
     [],
     [token_request bare_config;
      POST_json "https://api.fabric.microsoft.com/v1/deploymentPipelines"
        (py_dict [("displayName", PStr "pipe");
                  ("description", PStr "demo");
                  ("stages",
                   PList [py_dict [("displayName", PStr "Dev");
                                   ("description", PStr "Dev stage");
                                   ("isPublic", PBool false)];
                          py_dict [("displayName", PStr "Test");
                                   ("description", PStr "Test stage");
                                   ("isPublic", PBool false)];
                          py_dict [("displayName", PStr "Prod");
                                   ("description", PStr "Prod stage");
                                   ("isPublic", PBool false)]])])
        [("Authorization", "Bearer tok"); ("Content-Type", "application/json")]]).
Proof.
  destruct (create_deployment_pipeline_stages bare_config (scripted token_response)
              [token_response; answer 201 "Created" "(pipeline)" (Some three_stages)]
              (s1 := [answer 201 "Created" "(pipeline)" (Some three_stages)])
              (s2 := []) (tr := [token_request bare_config]) (token := PStr "tok")
              (resp := answer 201 "Created" "(pipeline)" (Some three_stages))
              "pipe" "demo" ["Dev"; "Test"; "Prod"] eq_refl eq_refl)
    as [_ P].
  destruct (P eq_refl
              [(PStr "id", PStr "pl-1");
               (PStr "stages",
                PList [py_dict [("displayName", PStr "Dev"); ("id", PStr "d1")];
                       py_dict [("displayName", PStr "Test"); ("id", PStr "t1")];
                       py_dict [("displayName", PStr "Prod"); ("id", PStr "p1")]])]
              [py_dict [("displayName", PStr "Dev"); ("id", PStr "d1")];
               py_dict [("displayName", PStr "Test"); ("id", PStr "t1")];
               py_dict [("displayName", PStr "Prod"); ("id", PStr "p1")]]
              [("Dev", PStr "d1"); ("Test", PStr "t1"); ("Prod", PStr "p1")]
              eq_refl)
    as [m [R [_ [_ M]]]].
  - left. reflexivity.
  - carried.
  - rewrite R, M; [reflexivity |].
    repeat constructor; simpl; intuition discriminate.
Defined.

Lemma list_workspaces_401_returns_witness :
  run (scripted token_response) (get_existing_workspaces bare_config)
    [token_response; answer 401 "Unauthorized" "denied" None]
  = (Returned (py_dict [("error", PStr "401 Unauthorized");
                        ("body", PStr "denied")]),
     [], [token_request bare_config; list_request (PStr "tok")]).
Proof.
  exact (list_workspaces_401_returns bare_config (scripted token_response)
           [token_response; answer 401 "Unauthorized" "denied" None]
           (s1 := [answer 401 "Unauthorized" "denied" None]) (s2 := [])
           (tr := [token_request bare_config]) (token := PStr "tok")
           (resp := answer 401 "Unauthorized" "denied" None)
           eq_refl eq_refl eq_refl).
Defined.

Lemma create_workspace_uses_default_witness :
  run (scripted token_response) (create_workspace full_config "ws" None)
    [token_response;
     answer 201 "Created" "(created)" (Some (py_dict [("id", PStr "ws-1")]))]
  = (Returned (py_dict [("workspace_id", PStr "ws-1")]), [],
     [token_request full_config;
      POST_json "https://api.fabric.microsoft.com/v1/workspaces"
        (py_dict [("displayName", PStr "ws"); ("capacityId", PStr "cap-9")])
        [("Authorization", "Bearer tok"); ("Content-Type", "application/json")]]).
Proof.
  destruct (create_workspace_uses_default full_config (scripted token_response)
              [token_response;
               answer 201 "Created" "(created)"
                 (Some (py_dict [("id", PStr "ws-1")]))]
              (s1 := [answer 201 "Created" "(created)"
                        (Some (py_dict [("id", PStr "ws-1")]))])
              (s2 := []) (tr := [token_request full_config])
              (token := PStr "tok")
              (resp := answer 201 "Created" "(created)"
                         (Some (py_dict [("id", PStr "ws-1")])))
              "ws" (default := "cap-9") eq_refl)
    as [_ R]; [discriminate | reflexivity | reflexivity |].
  exact (R eq_refl [(PStr "id", PStr "ws-1")] (PStr "ws-1") eq_refl eq_refl).
Defined.

(** C8, the failing token: when the identity endpoint refuses the token,
    [create_lakehouse] makes the token request and no upstream call. *)
Lemma refused_token_stops_the_call :
  run (scripted token_response) (create_lakehouse bare_config "ws" "lake")
    [token_denied; answer 201 "Created" "(created)" None]
  = (Raised (RuntimeError
       (token_failure_message bare_config token_denied
          "401 Client Error: Unauthorized for url: https://login.microsoftonline.com/tenant-0/oauth2/v2.0/token")),
     [answer 201 "Created" "(created)" None],
     [token_request bare_config])
  /\ ~ (exists r1 r2,
          snd (run (scripted token_response)
                 (create_lakehouse bare_config "ws" "lake")
                 [token_denied; answer 201 "Created" "(created)" None])
          = [r1; r2]).
Proof.
  split; [reflexivity |]. intros [r1 [r2 E]]. discriminate E.
Qed.

Lemma token_precedes_upstream_witness :
  snd (run (scripted token_response)
         (create_workspace full_config "ws" (Some "cap-1"))
         [token_response; answer 409 "Conflict" "name taken" None])
  = [token_request full_config;
     workspace_request "ws" "cap-1" (PStr "tok")].
Proof.
  destruct (token_precedes_upstream full_config (scripted token_response)
              [token_response; answer 409 "Conflict" "name taken" None]
              (call_create_workspace "ws" (Some "cap-1")) eq_refl)
    as [o [s1 [Htok [Shape _]]]].
  injection Htok as <- _.
  destruct Shape as [req [_ T]].
  assert (Q : req = workspace_request "ws" "cap-1" (PStr "tok")).
  { simpl in T. injection T as <-. reflexivity. }
  rewrite Q in T. exact T.
Defined.

Lemma create_workspace_not_idempotent_witness :
  fst (fst (run sequential_ids (create_workspace_twice full_config "ws" None) 0))
  = Returned (py_dict [("workspace_id", PStr "ws-0")],
              py_dict [("workspace_id", PStr "ws-1")])
  /\ py_dict [("workspace_id", PStr "ws-0")]
     <> py_dict [("workspace_id", PStr "ws-1")].
Proof.
  apply (create_workspace_not_idempotent full_config sequential_ids 0
           (s1 := 0) (s2 := 1) (s3 := 1) (s4 := 2)
           (tr1 := [token_request full_config])
           (tr2 := [token_request full_config])
           (token1 := PStr "tok") (token2 := PStr "tok")
           (resp1 := answer 201 "Created" "(created)"
                       (Some (py_dict [("id", PStr "ws-0")])))
           (resp2 := answer 201 "Created" "(created)"
                       (Some (py_dict [("id", PStr "ws-1")])))
           "ws" (cid := "cap-9") None
           (j1 := [(PStr "id", PStr "ws-0")]) (j2 := [(PStr "id", PStr "ws-1")]));
    try reflexivity; discriminate.
Defined.


(** ** Loading the module *)

Lemma truthy_is_set (o : option string) :
  truthy (opt_val o) = true <-> is_set o.
Proof.
  unfold is_set. destruct o as [v |]; simpl.
  - destruct (String.eqb_spec v EmptyString) as [-> | N]; simpl; split.
    + discriminate.
    + intros [w [E W]]. injection E as <-. contradiction.
    + intros _. exists v. split; [reflexivity | exact N].
    + reflexivity.
  - split; [discriminate | intros [w [E _]]; discriminate].
Qed.

Lemma truthy_same (a b : option string) :
  (is_set a <-> is_set b) -> truthy (opt_val a) = truthy (opt_val b).
Proof.
  intros E. rewrite <- !truthy_is_set in E.
  destruct (truthy (opt_val a)), (truthy (opt_val b)); try reflexivity;
    destruct E as [E1 E2]; [symmetry; apply E1 | apply E2]; reflexivity.
Qed.

Lemma missing_nil (p : Process) :
  missing p = [] <->
  is_set (getenv p "TENANT_ID") /\ is_set (getenv p "CLIENT_ID")
  /\ is_set (getenv p "CLIENT_SECRET").
Proof.
  rewrite <- !truthy_is_set. unfold missing. simpl.
  destruct (truthy (opt_val (getenv p "TENANT_ID"))),
           (truthy (opt_val (getenv p "CLIENT_ID"))),
           (truthy (opt_val (getenv p "CLIENT_SECRET"))); simpl;
    split; intros E; try discriminate; try (repeat split; reflexivity);
    destruct E as [E1 [E2 E3]]; discriminate.
Qed.

Lemma is_set_text (o : option string) :
  is_set o -> o = Some (text_of o) /\ text_of o <> EmptyString.
Proof. intros [v [-> N]]. split; [reflexivity | exact N]. Qed.

(** The credentials of a loaded configuration are not empty. *)
Lemma loaded_credentials_nonempty (p : Process) (cfg : Config) :
  load_module p = Returned cfg ->
  TENANT_ID cfg <> EmptyString /\ CLIENT_ID cfg <> EmptyString
  /\ CLIENT_SECRET cfg <> EmptyString.
Proof.
  intros E. unfold load_module in E.
  destruct (missing p) as [| k ks] eqn:M; [| discriminate].
  apply missing_nil in M. destruct M as [T [C X]].
  apply is_set_text in T, C, X.
  injection E as <-. simpl. intuition.
Qed.

(** X1: the module loads exactly when [TENANT_ID], [CLIENT_ID] and
    [CLIENT_SECRET] are all set to non-empty strings; the configuration the
    tools then read holds those three values, none of them empty, and the
    two optional defaults as the environment has them. *)
Theorem load_module_requires_credentials (p : Process) :
  ((exists cfg, load_module p = Returned cfg) <->
   is_set (getenv p "TENANT_ID") /\ is_set (getenv p "CLIENT_ID")
   /\ is_set (getenv p "CLIENT_SECRET"))
  /\ (forall cfg,
        load_module p = Returned cfg ->
        getenv p "TENANT_ID" = Some (TENANT_ID cfg)
        /\ getenv p "CLIENT_ID" = Some (CLIENT_ID cfg)
        /\ getenv p "CLIENT_SECRET" = Some (CLIENT_SECRET cfg)
        /\ TENANT_ID cfg <> EmptyString
        /\ CLIENT_ID cfg <> EmptyString
        /\ CLIENT_SECRET cfg <> EmptyString
        /\ USER_OBJECT_ID cfg = getenv p "USER_OBJECT_ID"
        /\ CAPACITY_ID cfg = getenv p "CAPACITY_ID").
Proof.
  split.
  - rewrite <- missing_nil. unfold load_module.
    destruct (missing p) as [| k ks]; split.
    + reflexivity.
    + intros _. eexists. reflexivity.
    + intros [cfg E]. discriminate.
    + discriminate.
  - intros cfg E. unfold load_module in E.
    destruct (missing p) as [| k ks] eqn:M; [| discriminate].
    apply missing_nil in M. destruct M as [T [C X]].
    apply is_set_text in T, C, X.
    injection E as <-. simpl. intuition.
Qed.

(** The keys among [keys] that are not set, in the order of [keys]. *)
Lemma missing_in_order (p : Process) :
  missing p =
  ((if truthy (opt_val (getenv p "TENANT_ID")) then [] else ["TENANT_ID"])
   ++ (if truthy (opt_val (getenv p "CLIENT_ID")) then [] else ["CLIENT_ID"])
   ++ (if truthy (opt_val (getenv p "CLIENT_SECRET")) then []
       else ["CLIENT_SECRET"]))%list.
Proof.
  unfold missing. simpl.
  destruct (truthy (opt_val (getenv p "TENANT_ID"))),
           (truthy (opt_val (getenv p "CLIENT_ID"))),
           (truthy (opt_val (getenv p "CLIENT_SECRET"))); reflexivity.
Qed.

(** X2: when loading fails, the error lists the required keys that are
    unset or empty, in the order [TENANT_ID], [CLIENT_ID],
    [CLIENT_SECRET] and separated by a comma and a space, with the working
    directory and the source of the environment; it shows no value: any
    process with the same directory and source and the same keys set fails
    with the same error. *)
Theorem load_module_names_missing_keys (p : Process) (e : exn) :
  load_module p = Raised e ->
  exists t c x : bool,
    (t = true <-> ~ is_set (getenv p "TENANT_ID"))
    /\ (c = true <-> ~ is_set (getenv p "CLIENT_ID"))
    /\ (x = true <-> ~ is_set (getenv p "CLIENT_SECRET"))
    /\ (t = true \/ c = true \/ x = true)
    /\ e = RuntimeError
             ("Missing required .env values: "
              ++ String.concat ", "
                   ((if t then ["TENANT_ID"] else [])
                    ++ (if c then ["CLIENT_ID"] else [])
                    ++ (if x then ["CLIENT_SECRET"] else []))%list
              ++ ". "
              ++ "WorkingDir=" ++ getcwd p
              ++ " EnvSource="
              ++ (if loaded p then dotenv_path p else "(no .env found)"))
    /\ (forall p',
          getcwd p' = getcwd p -> dotenv_path p' = dotenv_path p ->
          loaded p' = loaded p ->
          (forall k, is_set (getenv p' k) <-> is_set (getenv p k)) ->
          load_module p' = Raised e).
Proof.
  intros E.
  exists (negb (truthy (opt_val (getenv p "TENANT_ID")))),
         (negb (truthy (opt_val (getenv p "CLIENT_ID")))),
         (negb (truthy (opt_val (getenv p "CLIENT_SECRET")))).
  pose proof (truthy_is_set (getenv p "TENANT_ID")) as T.
  pose proof (truthy_is_set (getenv p "CLIENT_ID")) as C.
  pose proof (truthy_is_set (getenv p "CLIENT_SECRET")) as X.
  pose proof (missing_in_order p) as M.
  assert (N : missing p <> []).
  { unfold load_module in E. destruct (missing p); [discriminate | discriminate]. }
  split; [| split; [| split; [| split; [| split]]]].
  - destruct (truthy (opt_val (getenv p "TENANT_ID"))); simpl; split.
    + discriminate.
    + intros Q. exfalso. apply Q, T. reflexivity.
    + intros _ Q. apply T in Q. discriminate.
    + reflexivity.
  - destruct (truthy (opt_val (getenv p "CLIENT_ID"))); simpl; split.
    + discriminate.
    + intros Q. exfalso. apply Q, C. reflexivity.
    + intros _ Q. apply C in Q. discriminate.
    + reflexivity.
  - destruct (truthy (opt_val (getenv p "CLIENT_SECRET"))); simpl; split.
    + discriminate.
    + intros Q. exfalso. apply Q, X. reflexivity.
    + intros _ Q. apply X in Q. discriminate.
    + reflexivity.
  - destruct (truthy (opt_val (getenv p "TENANT_ID"))),
             (truthy (opt_val (getenv p "CLIENT_ID"))),
             (truthy (opt_val (getenv p "CLIENT_SECRET"))); simpl;
      simpl in M; first [contradiction | tauto].
  - unfold load_module in E. rewrite M in E.
    destruct (truthy (opt_val (getenv p "TENANT_ID"))),
             (truthy (opt_val (getenv p "CLIENT_ID"))),
             (truthy (opt_val (getenv p "CLIENT_SECRET")));
      simpl in E |- *; try discriminate; injection E as <-; reflexivity.
  - intros p' Ecwd Epath Eload Eset.
    assert (M' : missing p' = missing p).
    { rewrite !missing_in_order.
      rewrite (truthy_same (Eset "TENANT_ID")), (truthy_same (Eset "CLIENT_ID")),
        (truthy_same (Eset "CLIENT_SECRET")). reflexivity. }
    unfold load_module in *. rewrite M', Ecwd, Epath, Eload.
    destruct (missing p); [discriminate | exact E].
Qed.

(** ** Diagnostics *)

(** X3: [test_token] makes the token request and nothing else; a failed
    acquisition is raised unchanged, and for a string token the result
    holds its length alone. *)
Theorem test_token_reports_length `{PyLib} (cfg : Config) (S : Type)
  (h : transport S) (s : S) :
  exists o s1,
    run h (get_access_token cfg) s = (o, s1, [token_request cfg])
    /\ snd (run h (test_token cfg) s) = [token_request cfg]
    /\ match o with
       | Returned (PStr t) =>
           run h (test_token cfg) s =
           (Returned (py_dict [("access_token_len",
                                PInt (Z.of_nat (String.length t)))]),
            s1, [token_request cfg])
       | Returned _ => True
       | Raised e => run h (test_token cfg) s = (Raised e, s1, [token_request cfg])
       end.
Proof.
  destruct (run_get_access_token cfg h s) as [o Htok].
  exists o, (snd (h s (token_request cfg))). split; [exact Htok |].
  unfold test_token. rewrite run_bind, Htok.
  destruct o as [token | e]; [| split; reflexivity].
  destruct token; simpl; split; try reflexivity; exact I.
Qed.

(** X4: for a configuration the module has loaded, [mcp_env_info] makes no
    call and reports the directory, the source of the environment and
    booleans only: the three credentials as present, and for each default
    whether a call without the argument would resolve. *)
Theorem mcp_env_info_of_loaded (p : Process) (cfg : Config)
  (cwd : string) (S : Type) (h : transport S) (s : S) (name id : string) :
  load_module p = Returned cfg ->
  run h (mcp_env_info cfg cwd) s =
  (Returned
     (py_dict
        [("cwd", PStr cwd);
         ("env_source", PStr (ENV_SOURCE cfg));
         ("has_tenant_id", PBool true);
         ("has_client_id", PBool true);
         ("has_client_secret", PBool true);
         ("has_user_object_id",
          PBool (resolves cfg (call_assign_workspace_admin id None)));
         ("has_capacity_id",
          PBool (resolves cfg (call_create_workspace name None)))]),
   s, []).
Proof.
  intros L.
  destruct (loaded_credentials_nonempty p L) as [T [C X]].
  unfold mcp_env_info. simpl.
  destruct (String.eqb_spec (TENANT_ID cfg) EmptyString); [contradiction |].
  destruct (String.eqb_spec (CLIENT_ID cfg) EmptyString); [contradiction |].
  destruct (String.eqb_spec (CLIENT_SECRET cfg) EmptyString); [contradiction |].
  reflexivity.
Qed.

(** ** Argument resolution and the calls of a tool *)

Section Resolution.

Context `{PyLib}.
Variable cfg : Config.
Variable S : Type.
Variable h : transport S.

(** X5: a forwarding tool makes no call at all exactly when its defaulted
    argument resolves to nothing, whether the argument and the default are
    absent or empty; it then returns an error dictionary and leaves the
    transport as it was. *)
Theorem no_call_iff_unresolved (s : S) (c : tool_call) :
  (snd (run h (invoke cfg c) s) = [] <-> resolves cfg c = false)
  /\ (resolves cfg c = false ->
      exists msg, run h (invoke cfg c) s = (Returned (error_result msg), s, [])).
Proof.
  assert (U : resolves cfg c = false ->
              exists msg,
                run h (invoke cfg c) s = (Returned (error_result msg), s, [])).
  { intros R. destruct c; cbn [resolves] in R; try discriminate; cbn [invoke].
    - unfold create_workspace. fold (resolved capacity_id (CAPACITY_ID cfg)).
      rewrite R. eexists. reflexivity.
    - unfold assign_workspace_admin.
      fold (resolved user_object_id (USER_OBJECT_ID cfg)).
      rewrite R. eexists. reflexivity.
    - unfold assign_pipeline_admin.
      fold (resolved user_object_id (USER_OBJECT_ID cfg)).
      rewrite R. eexists. reflexivity. }
  split; [| exact U]. split.
  - intros T. destruct (resolves cfg c) eqn:R; [| reflexivity].
    destruct (invoke_forward cfg c R) as [req [finish [E _]]].
    rewrite E in T. unfold forward in T. rewrite run_bind in T.
    destruct (run_get_access_token cfg h s) as [o Htok]. rewrite Htok in T.
    destruct o as [token | e]; [| discriminate T].
    destruct (run h (Call (req token) finish) _) as [[o2 s2] tr2].
    discriminate T.
  - intros R. destruct (U R) as [msg ->]. reflexivity.
Qed.

End Resolution.

Section Bodies.

Context `{PyLib}.
Variable cfg : Config.
Variable S : Type.
Variable h : transport S.

Lemma run_token_then_call (s s1 : S) (tr : list Request) (token : pyval)
  (req : pyval -> Request) (finish : Response -> prog pyval) :
  run h (get_access_token cfg) s = (Returned token, s1, tr) ->
  (forall resp, call_free (finish resp) = true) ->
  run h (t <- get_access_token cfg ;; Call (req t) finish) s =
  (result_of (finish (fst (h s1 (req token)))), snd (h s1 (req token)),
   (tr ++ [req token])%list).
Proof. intros Htok CF. apply (run_forward cfg h s req finish Htok CF). Qed.

Lemma truthy_text (v : string) : v <> EmptyString -> truthy (PStr v) = true.
Proof.
  intros N. simpl. destruct (String.eqb_spec v EmptyString);
    [contradiction | reflexivity].
Qed.

Lemma resolved_explicit (a : string) (default : option string) :
  a <> EmptyString -> resolved (Some a) default = PStr a.
Proof.
  intros N. unfold resolved, py_or. cbn [opt_val].
  rewrite (truthy_text N). reflexivity.
Qed.

(** The admin tools post the resolved principal and pass the answer
    through. *)
Lemma run_assign_admin (s s1 : S) (tr : list Request) (token : pyval)
  (id v : string) (arg : option string) :
  resolved arg (USER_OBJECT_ID cfg) = PStr v ->
  v <> EmptyString ->
  run h (get_access_token cfg) s = (Returned token, s1, tr) ->
  run h (assign_workspace_admin cfg id arg) s =
    (Returned (passthrough (fst (h s1 (workspace_admin_request id v token)))),
     snd (h s1 (workspace_admin_request id v token)),
     (tr ++ [workspace_admin_request id v token])%list)
  /\ run h (assign_pipeline_admin cfg id arg) s =
       (Returned (passthrough (fst (h s1 (pipeline_admin_request id v token)))),
        snd (h s1 (pipeline_admin_request id v token)),
        (tr ++ [pipeline_admin_request id v token])%list).
Proof.
  intros Rv NE Htok.
  unfold assign_workspace_admin, assign_pipeline_admin.
  fold (resolved arg (USER_OBJECT_ID cfg)). rewrite Rv, (truthy_text NE).
  cbn [negb]. unfold requests_post_json. cbn [bind].
  split.
  - apply (run_token_then_call s
             (fun t => workspace_admin_request id v t)
             (fun resp => Ret (passthrough resp)) Htok).
    reflexivity.
  - apply (run_token_then_call s
             (fun t => pipeline_admin_request id v t)
             (fun resp => Ret (passthrough resp)) Htok).
    reflexivity.
Qed.

(** X6: an argument that is given and not empty is the value sent,
    whatever default is configured: [create_workspace] posts it as
    [capacityId], the two admin tools as the id of the principal. *)
Theorem explicit_argument_overrides_default (s s1 : S) (tr : list Request)
  (token : pyval) (a : string) :
  a <> EmptyString ->
  run h (get_access_token cfg) s = (Returned token, s1, tr) ->
  (forall name,
     snd (run h (create_workspace cfg name (Some a)) s)
     = (tr ++ [workspace_request name a token])%list)
  /\ (forall id,
        snd (run h (assign_workspace_admin cfg id (Some a)) s)
        = (tr ++ [workspace_admin_request id a token])%list)
  /\ (forall id,
        snd (run h (assign_pipeline_admin cfg id (Some a)) s)
        = (tr ++ [pipeline_admin_request id a token])%list).
Proof.
  intros NE Htok. split; [| split].
  - intros name.
    destruct (h s1 (workspace_request name a token)) as [resp s2] eqn:Hup.
    apply (@run_create_workspace _ cfg S h s s1 s2 tr token resp name a (Some a)
             (resolved_explicit (CAPACITY_ID cfg) NE) NE Htok Hup).
  - intros id.
    destruct (run_assign_admin s id (Some a)
                (resolved_explicit (USER_OBJECT_ID cfg) NE) NE Htok) as [W _].
    rewrite W. reflexivity.
  - intros id.
    destruct (run_assign_admin s id (Some a)
                (resolved_explicit (USER_OBJECT_ID cfg) NE) NE Htok) as [_ P].
    rewrite P. reflexivity.
Qed.

(** X7: with the argument absent or empty and a non-empty
    [USER_OBJECT_ID], the two admin tools post the configured user as a
    principal of type [User] with role [Admin], and return the status and
    raw body of the answer whatever the status, a success included. *)
Theorem admin_tools_use_default_user (s s1 : S) (tr : list Request)
  (token : pyval) (default id : string) (arg : option string) :
  USER_OBJECT_ID cfg = Some default ->
  default <> EmptyString ->
  arg = None \/ arg = Some EmptyString ->
  run h (get_access_token cfg) s = (Returned token, s1, tr) ->
  run h (assign_workspace_admin cfg id arg) s =
    (Returned (passthrough (fst (h s1 (workspace_admin_request id default token)))),
     snd (h s1 (workspace_admin_request id default token)),
     (tr ++ [POST_json
               (FABRIC_BASE ++ "/workspaces/" ++ id ++ "/roleAssignments")
               (py_dict [("principal",
                          py_dict [("id", PStr default); ("type", PStr "User")]);
                         ("role", PStr "Admin")])
               (_headers token)])%list)
  /\ run h (assign_pipeline_admin cfg id arg) s =
       (Returned (passthrough (fst (h s1 (pipeline_admin_request id default token)))),
        snd (h s1 (pipeline_admin_request id default token)),
        (tr ++ [POST_json
                  (FABRIC_BASE ++ "/deploymentPipelines/" ++ id
                   ++ "/roleAssignments")
                  (py_dict [("principal",
                             py_dict [("id", PStr default); ("type", PStr "User")]);
                            ("role", PStr "Admin")])
                  (_headers token)])%list).
Proof.
  intros D NE A Htok.
  apply (run_assign_admin s id arg); [| exact NE | exact Htok].
  unfold resolved, py_or. rewrite D.
  destruct A as [-> | ->]; reflexivity.
Qed.

End Bodies.

Section EmptyArguments.

Context `{PyLib}.
Variable cfg : Config.

Lemma resolved_empty (default : string) :
  resolved (Some EmptyString) (Some default) = PStr default.
Proof. reflexivity. Qed.

(** C10: for [create_workspace], [assign_workspace_admin] and
    [assign_pipeline_admin] an empty-string argument behaves as an absent
    one.  With a non-empty configured default the tool falls back to it:
    [create_workspace] posts the default as [capacityId] and maps the
    answer as usual, the admin tools post the default as the principal's
    id and pass the answer through.  When the configured default is empty
    or unset as well, the tool returns its missing-value error.  And
    whatever the arguments, the value sent upstream is never the empty
    string. *)
Theorem empty_argument_is_absent :
  (forall name,
     create_workspace cfg name (Some EmptyString) = create_workspace cfg name None)
  /\ (forall id,
        assign_workspace_admin cfg id (Some EmptyString)
        = assign_workspace_admin cfg id None)
  /\ (forall id,
        assign_pipeline_admin cfg id (Some EmptyString)
        = assign_pipeline_admin cfg id None)
  /\ (forall default,
        CAPACITY_ID cfg = Some default ->
        default <> EmptyString ->
        forall (S : Type) (h : transport S) (s s1 : S) (tr : list Request)
               (token : pyval) (name : string),
          run h (get_access_token cfg) s = (Returned token, s1, tr) ->
          snd (run h (create_workspace cfg name (Some EmptyString)) s)
          = (tr ++ [POST_json (FABRIC_BASE ++ "/workspaces")
                      (py_dict [("displayName", PStr name);
                                ("capacityId", PStr default)])
                      (_headers token)])%list
          /\ (forall resp s2 j,
                h s1 (workspace_request name default token) = (resp, s2) ->
                status_code resp = 201 ->
                json resp = Some (PDict j) ->
                run h (create_workspace cfg name (Some EmptyString)) s =
                (Returned (py_dict [("workspace_id", get_or_none j "id")]), s2,
                 (tr ++ [workspace_request name default token])%list)))
  /\ (forall default,
        USER_OBJECT_ID cfg = Some default ->
        default <> EmptyString ->
        forall (S : Type) (h : transport S) (s s1 : S) (tr : list Request)
               (token : pyval) (id : string),
          run h (get_access_token cfg) s = (Returned token, s1, tr) ->
          run h (assign_workspace_admin cfg id (Some EmptyString)) s =
            (Returned (passthrough
                         (fst (h s1 (workspace_admin_request id default token)))),
             snd (h s1 (workspace_admin_request id default token)),
             (tr ++ [POST_json
                       (FABRIC_BASE ++ "/workspaces/" ++ id ++ "/roleAssignments")
                       (py_dict [("principal",
                                  py_dict [("id", PStr default);
                                           ("type", PStr "User")]);
                                 ("role", PStr "Admin")])
                       (_headers token)])%list)
          /\ run h (assign_pipeline_admin cfg id (Some EmptyString)) s =
               (Returned (passthrough
                            (fst (h s1 (pipeline_admin_request id default token)))),
                snd (h s1 (pipeline_admin_request id default token)),
                (tr ++ [POST_json
                          (FABRIC_BASE ++ "/deploymentPipelines/" ++ id
                           ++ "/roleAssignments")
                          (py_dict [("principal",
                                     py_dict [("id", PStr default);
                                              ("type", PStr "User")]);
                                    ("role", PStr "Admin")])
                          (_headers token)])%list))
  /\ (truthy (opt_val (CAPACITY_ID cfg)) = false ->
      forall name,
        create_workspace cfg name (Some EmptyString) =
        Ret (error_result "capacity_id not provided and CAPACITY_ID missing in .env"))
  /\ (truthy (opt_val (USER_OBJECT_ID cfg)) = false ->
      forall id,
        assign_workspace_admin cfg id (Some EmptyString) =
        Ret (error_result
               "user_object_id not provided and USER_OBJECT_ID missing in .env")
        /\ assign_pipeline_admin cfg id (Some EmptyString) =
           Ret (error_result
                  "user_object_id not provided and USER_OBJECT_ID missing in .env"))
  /\ (forall (S : Type) (h : transport S) (s : S) name id arg,
        Forall (carries_value (workspace_payload name))
          (snd (run h (create_workspace cfg name arg) s))
        /\ Forall (carries_value admin_payload)
             (snd (run h (assign_workspace_admin cfg id arg) s))
        /\ Forall (carries_value admin_payload)
             (snd (run h (assign_pipeline_admin cfg id arg) s))).
Proof.
  split; [reflexivity |]. split; [reflexivity |]. split; [reflexivity |].
  split; [| split; [| split; [| split]]].
  - intros default D NE S h s s1 tr token name Htok.
    assert (Rv : resolved (Some EmptyString) (CAPACITY_ID cfg) = PStr default).
    { rewrite D. apply resolved_empty. }
    split.
    + destruct (h s1 (workspace_request name default token)) as [resp s2] eqn:Hup.
      apply (@run_create_workspace _ cfg S h s s1 s2 tr token resp name default
               (Some EmptyString) Rv NE Htok Hup).
    + intros resp s2 j Hup St J.
      destruct (@run_create_workspace _ cfg S h s s1 s2 tr token resp name default
                  (Some EmptyString) Rv NE Htok Hup) as [_ R].
      exact (R St j J).
  - intros default D NE S h s s1 tr token id Htok.
    assert (Rv : resolved (Some EmptyString) (USER_OBJECT_ID cfg) = PStr default).
    { rewrite D. apply resolved_empty. }
    exact (@run_assign_admin _ cfg S h s s1 tr token id default
             (Some EmptyString) Rv NE Htok).
  - intros F name. unfold create_workspace, py_or. simpl. rewrite F. reflexivity.
  - intros F id. unfold assign_workspace_admin, assign_pipeline_admin, py_or.
    simpl. rewrite F. split; reflexivity.
  - intros S h s name id arg. split; [| split].
    + unfold create_workspace. fold (resolved arg (CAPACITY_ID cfg)).
      destruct (truthy (resolved arg (CAPACITY_ID cfg))) eqn:T; simpl.
      * destruct (resolved_truthy _ _ T) as [v [-> NE]].
        apply (defaulted_trace cfg h s (workspace_payload name)); [exact NE |].
        intros resp. destruct (status_code resp =? 201); [| reflexivity].
        unfold resp_json. destruct (json resp) as [j |]; [| reflexivity].
        destruct j; reflexivity.
      * constructor.
    + unfold assign_workspace_admin. fold (resolved arg (USER_OBJECT_ID cfg)).
      destruct (truthy (resolved arg (USER_OBJECT_ID cfg))) eqn:T; simpl.
      * destruct (resolved_truthy _ _ T) as [v [-> NE]].
        apply (defaulted_trace cfg h s admin_payload); [exact NE | reflexivity].
      * constructor.
    + unfold assign_pipeline_admin. fold (resolved arg (USER_OBJECT_ID cfg)).
      destruct (truthy (resolved arg (USER_OBJECT_ID cfg))) eqn:T; simpl.
      * destruct (resolved_truthy _ _ T) as [v [-> NE]].
        apply (defaulted_trace cfg h s admin_payload); [exact NE | reflexivity].
      * constructor.
Qed.

End EmptyArguments.

Lemma empty_argument_is_absent_witness :
  create_workspace bare_config "ws" (Some EmptyString)
  = Ret (error_result "capacity_id not provided and CAPACITY_ID missing in .env")
  /\ run (scripted token_response)
       (assign_workspace_admin full_config "ws-1" (Some EmptyString))
       [token_response; answer 200 "OK" "assigned" None]
     = (Returned (py_dict [("status", PInt 200); ("body", PStr "assigned")]), [],
        [token_request full_config;
         workspace_admin_request "ws-1" "user-7" (PStr "tok")])
  /\ run (scripted token_response)
       (assign_pipeline_admin full_config "pl-1" (Some EmptyString))
       [token_response; answer 403 "Forbidden" "denied" None]
     = (Returned (py_dict [("status", PInt 403); ("body", PStr "denied")]), [],
        [token_request full_config;
         pipeline_admin_request "pl-1" "user-7" (PStr "tok")])
  /\ snd (run (scripted token_response)
            (create_workspace full_config "ws" (Some EmptyString))
            [token_response; created None])
     = [token_request full_config;
        workspace_request "ws" "cap-9" (PStr "tok")].
Proof.
  split; [| split; [| split]].
  - destruct (empty_argument_is_absent bare_config)
      as [_ [_ [_ [_ [_ [E _]]]]]].
    exact (E eq_refl "ws").
  - destruct (empty_argument_is_absent full_config)
      as [_ [_ [_ [_ [U _]]]]].
    destruct (U "user-7" eq_refl) with
      (S := list Response) (h := scripted token_response)
      (s := [token_response; answer 200 "OK" "assigned" None])
      (s1 := [answer 200 "OK" "assigned" None])
      (tr := [token_request full_config]) (token := PStr "tok") (id := "ws-1")
      as [W _]; [discriminate | reflexivity |].
    exact W.
  - destruct (empty_argument_is_absent full_config)
      as [_ [_ [_ [_ [U _]]]]].
    destruct (U "user-7" eq_refl) with
      (S := list Response) (h := scripted token_response)
      (s := [token_response; answer 403 "Forbidden" "denied" None])
      (s1 := [answer 403 "Forbidden" "denied" None])
      (tr := [token_request full_config]) (token := PStr "tok") (id := "pl-1")
      as [_ W]; [discriminate | reflexivity |].
    exact W.
  - destruct (empty_argument_is_absent full_config)
      as [_ [_ [_ [C _]]]].
    destruct (C "cap-9" eq_refl) with
      (S := list Response) (h := scripted token_response)
      (s := [token_response; created None]) (s1 := [created None])
      (tr := [token_request full_config]) (token := PStr "tok") (name := "ws")
      as [W _]; [discriminate | reflexivity |].
    exact W.
Defined.


Section Folders.

Context `{PyLib}.
Variable cfg : Config.
Variable S : Type.
Variable h : transport S.

Lemma folder_payload_with_parent (a b : pyval) :
  dict_set [(PStr "displayName", a)] (PStr "parentFolderId") b
  = [(PStr "displayName", a); (PStr "parentFolderId", b)].
Proof. reflexivity. Qed.

(** The folder tool posts [body] and maps the answer. *)
Lemma run_create_workspace_folder (s s1 : S) (tr : list Request)
  (token : pyval) (workspace_id folder_name : string)
  (parent_folder_id : option string) (body : pyval) :
  body = (if truthy (opt_val parent_folder_id)
          then py_dict [("displayName", PStr folder_name);
                        ("parentFolderId", opt_val parent_folder_id)]
          else py_dict [("displayName", PStr folder_name)]) ->
  run h (get_access_token cfg) s = (Returned token, s1, tr) ->
  run h (create_workspace_folder cfg workspace_id folder_name parent_folder_id) s
  = (result_of
       (let resp := fst (h s1 (folder_request workspace_id body token)) in
        if status_code resp =? 201 then
          j <- resp_json resp ;;
          i <- py_get j "id" PNone ;;
          n <- py_get j "displayName" PNone ;;
          Ret (py_dict [("folder_id", i); ("displayName", n)])
        else Ret (passthrough resp)),
     snd (h s1 (folder_request workspace_id body token)),
     (tr ++ [folder_request workspace_id body token])%list).
Proof.
  intros -> Htok. unfold create_workspace_folder.
  unfold requests_post_json. cbn [bind].
  rewrite folder_payload_with_parent.
  destruct (truthy (opt_val parent_folder_id)).
  - apply (run_token_then_call cfg h s
             (fun t => folder_request workspace_id
                         (py_dict [("displayName", PStr folder_name);
                                   ("parentFolderId", opt_val parent_folder_id)]) t)
             (fun resp =>
                if status_code resp =? 201 then
                  j <- resp_json resp ;;
                  i <- py_get j "id" PNone ;;
                  n <- py_get j "displayName" PNone ;;
                  Ret (py_dict [("folder_id", i); ("displayName", n)])
                else Ret (passthrough resp)) Htok).
    intros resp. call_free_steps.
  - apply (run_token_then_call cfg h s
             (fun t => folder_request workspace_id
                         (py_dict [("displayName", PStr folder_name)]) t)
             (fun resp =>
                if status_code resp =? 201 then
                  j <- resp_json resp ;;
                  i <- py_get j "id" PNone ;;
                  n <- py_get j "displayName" PNone ;;
                  Ret (py_dict [("folder_id", i); ("displayName", n)])
                else Ret (passthrough resp)) Htok).
    intros resp. call_free_steps.
Qed.

(** X8: [create_workspace_folder] posts to the folders of the workspace a
    body that holds [displayName] alone when the parent is absent or
    empty, and [displayName] with [parentFolderId] when a parent is
    given. *)
Theorem folder_body_has_parent_only_when_given (s s1 : S)
  (tr : list Request) (token : pyval) (workspace_id folder_name : string) :
  run h (get_access_token cfg) s = (Returned token, s1, tr) ->
  (forall parent,
     parent = None \/ parent = Some EmptyString ->
     snd (run h (create_workspace_folder cfg workspace_id folder_name parent) s)
     = (tr ++ [POST_json
                 (FABRIC_BASE ++ "/workspaces/" ++ workspace_id ++ "/folders")
                 (py_dict [("displayName", PStr folder_name)])
                 (_headers token)])%list)
  /\ (forall p,
        p <> EmptyString ->
        snd (run h (create_workspace_folder cfg workspace_id folder_name (Some p)) s)
        = (tr ++ [POST_json
                    (FABRIC_BASE ++ "/workspaces/" ++ workspace_id ++ "/folders")
                    (py_dict [("displayName", PStr folder_name);
                              ("parentFolderId", PStr p)])
                    (_headers token)])%list).
Proof.
  intros Htok. split.
  - intros parent A.
    rewrite (run_create_workspace_folder s workspace_id folder_name parent
               eq_refl Htok).
    destruct A as [-> | ->]; reflexivity.
  - intros p NE.
    rewrite (run_create_workspace_folder s workspace_id folder_name (Some p)
               eq_refl Htok).
    cbn [opt_val]. rewrite (truthy_text NE). reflexivity.
Qed.

(** X9: on a 201 answer whose body is a JSON object, the folder tool
    returns the object's [id] and [displayName] as [folder_id] and
    [displayName], with [None] for a field the object lacks; on any other
    status it returns the status and raw body. *)
Theorem folder_result_from_answer (s s1 : S) (tr : list Request)
  (token : pyval) (workspace_id folder_name : string)
  (parent_folder_id : option string) :
  run h (get_access_token cfg) s = (Returned token, s1, tr) ->
  exists req,
    snd (run h (create_workspace_folder cfg workspace_id folder_name
                  parent_folder_id) s) = (tr ++ [req])%list
    /\ (forall j,
          status_code (fst (h s1 req)) = 201 ->
          json (fst (h s1 req)) = Some (PDict j) ->
          fst (fst (run h (create_workspace_folder cfg workspace_id folder_name
                             parent_folder_id) s))
          = Returned (py_dict [("folder_id", get_or_none j "id");
                               ("displayName", get_or_none j "displayName")]))
    /\ (status_code (fst (h s1 req)) <> 201 ->
        fst (fst (run h (create_workspace_folder cfg workspace_id folder_name
                           parent_folder_id) s))
        = Returned (passthrough (fst (h s1 req)))).
Proof.
  intros Htok.
  eexists. rewrite (run_create_workspace_folder s workspace_id folder_name
                      parent_folder_id eq_refl Htok).
  split; [reflexivity |]. split.
  - intros j St J. cbn [fst]. rewrite St. cbn [Z.eqb Pos.eqb].
    unfold resp_json. rewrite J. reflexivity.
  - intros N. cbn [fst].
    destruct (Z.eqb_spec (status_code (fst (h s1 (folder_request workspace_id
                (if truthy (opt_val parent_folder_id)
                 then py_dict [("displayName", PStr folder_name);
                               ("parentFolderId", opt_val parent_folder_id)]
                 else py_dict [("displayName", PStr folder_name)]) token)))) 201)
      as [E | _]; [contradiction | reflexivity].
Qed.

End Folders.

Section Created.

Context `{PyLib}.
Variable cfg : Config.
Variable S : Type.
Variable h : transport S.

(** What the three tools with a success status do with a 201 answer whose
    body is not a JSON object. *)
Lemma invoke_forward_created (c : tool_call) :
  resolves cfg c = true ->
  success_status c = Some 201 ->
  exists req finish,
    invoke cfg c = forward cfg req finish
    /\ (forall resp, call_free (finish resp) = true)
    /\ (forall resp,
          status_code resp = 201 -> json resp = None ->
          finish resp = Raise JSONDecodeError)
    /\ (forall resp v,
          status_code resp = 201 -> json resp = Some v ->
          (forall d, v <> PDict d) ->
          finish resp =
          Raise (AttributeError
                   ("'" ++ type_name v ++ "' object has no attribute 'get'"))).
Proof.
  intros R Su.
  destruct c; cbn [success_status] in Su; try discriminate;
    cbn [invoke resolves] in *.
  - eexists _, _. split; [| split; [| split]].
    + unfold create_workspace. fold (resolved capacity_id (CAPACITY_ID cfg)).
      rewrite R. reflexivity.
    + intros resp. call_free_steps.
    + intros resp St J. cbn [bind]. rewrite St. cbn [Z.eqb Pos.eqb].
      unfold resp_json. rewrite J. reflexivity.
    + intros resp v St J N. cbn [bind]. rewrite St. cbn [Z.eqb Pos.eqb].
      unfold resp_json. rewrite J.
      destruct v; try reflexivity. contradiction (N d). reflexivity.
  - eexists _, _. split; [reflexivity |]. split; [| split].
    + intros resp. call_free_steps.
    + intros resp St J. cbn [bind]. rewrite St. cbn [Z.eqb Pos.eqb].
      unfold resp_json. rewrite J. reflexivity.
    + intros resp v St J N. cbn [bind]. rewrite St. cbn [Z.eqb Pos.eqb].
      unfold resp_json. rewrite J.
      destruct v; try reflexivity. contradiction (N d). reflexivity.
  - eexists _, _. split; [reflexivity |]. split; [| split].
    + intros resp. call_free_steps.
    + intros resp St J. cbn [bind]. rewrite St. cbn [Z.eqb Pos.eqb].
      unfold resp_json. rewrite J. reflexivity.
    + intros resp v St J N. cbn [bind]. rewrite St. cbn [Z.eqb Pos.eqb].
      unfold resp_json. rewrite J.
      destruct v; try reflexivity. contradiction (N d). reflexivity.
Qed.

(** X10: [create_workspace], [create_workspace_folder] and
    [create_deployment_pipeline] read the body of a 201 answer only after
    the upstream call is made; when that body does not decode the tool
    raises [JSONDecodeError], and when it decodes to something other than
    an object the tool raises [AttributeError]: neither is turned into an
    error result. *)
Theorem created_with_unreadable_body_raises (s s1 : S) (tr : list Request)
  (token : pyval) (c : tool_call) :
  resolves cfg c = true ->
  success_status c = Some 201 ->
  run h (get_access_token cfg) s = (Returned token, s1, tr) ->
  exists req,
    snd (run h (invoke cfg c) s) = (tr ++ [req])%list
    /\ (status_code (fst (h s1 req)) = 201 ->
        json (fst (h s1 req)) = None ->
        fst (fst (run h (invoke cfg c) s)) = Raised JSONDecodeError)
    /\ (forall v,
          status_code (fst (h s1 req)) = 201 ->
          json (fst (h s1 req)) = Some v ->
          (forall d, v <> PDict d) ->
          fst (fst (run h (invoke cfg c) s))
          = Raised (AttributeError
                      ("'" ++ type_name v ++ "' object has no attribute 'get'"))).
Proof.
  intros R Su Htok.
  destruct (invoke_forward_created c R Su) as [req [finish [E [CF [D A]]]]].
  exists (req token). rewrite E, (run_forward cfg h s req finish Htok CF).
  split; [reflexivity |]. split.
  - intros St J. cbn [fst]. rewrite (D _ St J). reflexivity.
  - intros v St J N. cbn [fst]. rewrite (A _ v St J N). reflexivity.
Qed.

(** X11: a 201 answer whose JSON object has no [id] is not an error:
    [create_workspace] returns [{"workspace_id": None}], and
    [create_deployment_pipeline], when the object has no [stages] either,
    returns [{"pipeline_id": None, "stages": {}}]. *)
Theorem created_without_id_gives_none (s s1 s2 : S) (tr : list Request)
  (token : pyval) (resp : Response) (j : pydict) :
  run h (get_access_token cfg) s = (Returned token, s1, tr) ->
  status_code resp = 201 ->
  json resp = Some (PDict j) ->
  dict_lookup j (PStr "id") = None ->
  (forall name cid capacity_id,
     resolved capacity_id (CAPACITY_ID cfg) = PStr cid ->
     cid <> EmptyString ->
     h s1 (workspace_request name cid token) = (resp, s2) ->
     fst (fst (run h (create_workspace cfg name capacity_id) s))
     = Returned (py_dict [("workspace_id", PNone)]))
  /\ (forall name description stages,
        dict_lookup j (PStr "stages") = None ->
        h s1 (pipeline_request name description stages token) = (resp, s2) ->
        fst (fst (run h (create_deployment_pipeline cfg name description stages) s))
        = Returned (py_dict [("pipeline_id", PNone); ("stages", PDict [])])).
Proof.
  intros Htok St J L. split.
  - intros name cid capacity_id Rv NE Hup.
    destruct (@run_create_workspace _ cfg S h s s1 s2 tr token resp name cid
                capacity_id Rv NE Htok Hup) as [_ R].
    rewrite (R St j J). unfold get_or_none. rewrite L. reflexivity.
  - intros name description stages Ls Hup.
    unfold create_deployment_pipeline. rewrite run_bind, Htok.
    unfold requests_post_json. cbn [bind].
    change (POST_json _ _ (_headers token))
      with (pipeline_request name description stages token).
    erewrite run_call by exact Hup.
    rewrite St. cbn [Z.eqb Pos.eqb].
    unfold resp_json. rewrite J. cbn [bind py_get]. rewrite Ls, L.
    reflexivity.
Qed.

End Created.

(** ** Malformed listings *)

Lemma dict_comprehension_prefix (good rest : list pyval)
  (pairs : list (string * pyval)) (acc : pydict) :
  Forall2 carries good pairs ->
  dict_comprehension "displayName" "id" (good ++ rest)%list acc =
  dict_comprehension "displayName" "id" rest (fold_left store pairs acc).
Proof.
  intros F. revert acc. induction F as [| e p es ps C F IH]; intros acc.
  - reflexivity.
  - destruct C as [d [-> [En Ei]]].
    cbn [app dict_comprehension py_getitem]. rewrite En. cbn [bind].
    rewrite Ei. cbn [bind py_setitem hashable]. apply IH.
Qed.

(** An entry that lacks one of the two keys stops the comprehension. *)
Lemma dict_comprehension_missing_key (good rest : list pyval)
  (pairs : list (string * pyval)) (d : pydict) :
  Forall2 carries good pairs ->
  (dict_lookup d (PStr "displayName") = None ->
   dict_comprehension "displayName" "id" (good ++ PDict d :: rest)%list []
   = Raise (KeyError "displayName"))
  /\ (dict_lookup d (PStr "displayName") <> None ->
      dict_lookup d (PStr "id") = None ->
      dict_comprehension "displayName" "id" (good ++ PDict d :: rest)%list []
      = Raise (KeyError "id")).
Proof.
  intros F. rewrite (dict_comprehension_prefix (PDict d :: rest) [] F).
  cbn [dict_comprehension py_getitem]. split.
  - intros ->. reflexivity.
  - intros N ->. destruct (dict_lookup d (PStr "displayName"));
      [reflexivity | contradiction].
Qed.

Section Malformed.

Context `{PyLib}.
Variable cfg : Config.
Variable S : Type.
Variable h : transport S.

Lemma run_listing_passed (s s1 s2 : S) (tr : list Request) (token : pyval)
  (resp : Response) :
  run h (get_access_token cfg) s = (Returned token, s1, tr) ->
  h s1 (list_request token) = (resp, s2) ->
  passes resp ->
  run h (get_existing_workspaces cfg) s =
  (result_of
     (data <- resp_json resp ;;
      value <- py_get data "value" (PList []) ;;
      items <- py_iter value ;;
      m <- dict_comprehension "displayName" "id" items [] ;;
      Ret (PDict m)),
   s2, (tr ++ [list_request token])%list).
Proof.
  intros Htok Hup P. unfold passes in P.
  unfold get_existing_workspaces. rewrite run_bind, Htok.
  unfold requests_get. cbn [bind].
  erewrite run_call by exact Hup.
  replace (status_code resp =? 401) with false
    by (symmetry; apply Z.eqb_neq; lia).
  rewrite raise_for_status_passes by lia. cbn [bind].
  rewrite run_call_free by call_free_steps. reflexivity.
Qed.

(** X12: when the listing is answered without a 4xx or 5xx status but with
    a body that is not the expected document, [get_existing_workspaces]
    raises and returns no mapping: [JSONDecodeError] for a body that does
    not decode, [AttributeError] for a document that is not an object, and
    [TypeError] for an object whose [value] is null. *)
Theorem list_workspaces_malformed_document (s s1 s2 : S) (tr : list Request)
  (token : pyval) (resp : Response) :
  run h (get_access_token cfg) s = (Returned token, s1, tr) ->
  h s1 (list_request token) = (resp, s2) ->
  passes resp ->
  (json resp = None ->
   run h (get_existing_workspaces cfg) s =
   (Raised JSONDecodeError, s2, (tr ++ [list_request token])%list))
  /\ (forall v,
        json resp = Some v -> (forall d, v <> PDict d) ->
        run h (get_existing_workspaces cfg) s =
        (Raised (AttributeError
                   ("'" ++ type_name v ++ "' object has no attribute 'get'")),
         s2, (tr ++ [list_request token])%list))
  /\ (forall data,
        json resp = Some (PDict data) ->
        dict_lookup data (PStr "value") = Some PNone ->
        run h (get_existing_workspaces cfg) s =
        (Raised (TypeError "'NoneType' object is not iterable"),
         s2, (tr ++ [list_request token])%list)).
Proof.
  intros Htok Hup P. rewrite (run_listing_passed s Htok Hup P).
  unfold resp_json. split; [| split].
  - intros ->. reflexivity.
  - intros v -> N. destruct v; try reflexivity. contradiction (N d). reflexivity.
  - intros data -> L. cbn [bind py_get]. rewrite L. reflexivity.
Qed.

(** X13: one workspace entry without [displayName] or without [id] fails
    the whole listing: [get_existing_workspaces] raises [KeyError] naming
    the missing key, whatever well-formed entries come before or after. *)
Theorem list_workspaces_entry_missing_key (s s1 s2 : S) (tr : list Request)
  (token : pyval) (resp : Response) (data : pydict) (good rest : list pyval)
  (pairs : list (string * pyval)) (d : pydict) :
  run h (get_access_token cfg) s = (Returned token, s1, tr) ->
  h s1 (list_request token) = (resp, s2) ->
  passes resp ->
  json resp = Some (PDict data) ->
  dict_lookup data (PStr "value") = Some (PList (good ++ PDict d :: rest)) ->
  Forall2 carries good pairs ->
  (dict_lookup d (PStr "displayName") = None ->
   run h (get_existing_workspaces cfg) s =
   (Raised (KeyError "displayName"), s2, (tr ++ [list_request token])%list))
  /\ (dict_lookup d (PStr "displayName") <> None ->
      dict_lookup d (PStr "id") = None ->
      run h (get_existing_workspaces cfg) s =
      (Raised (KeyError "id"), s2, (tr ++ [list_request token])%list)).
Proof.
  intros Htok Hup P J L F. rewrite (run_listing_passed s Htok Hup P).
  unfold resp_json. rewrite J. cbn [bind py_get]. rewrite L.
  cbn [bind py_iter].
  destruct (dict_comprehension_missing_key rest d F) as [K1 K2].
  split.
  - intros N. rewrite (K1 N). reflexivity.
  - intros N1 N2. rewrite (K2 N1 N2). reflexivity.
Qed.

End Malformed.

(** ** Where the calls go *)

Section Hosts.

Context `{PyLib}.
Variable cfg : Config.

(** The upstream call of a tool and the mapping of its answer do not
    mention the client secret, and the call goes to the Fabric API. *)
Lemma invoke_forward_upstream (c : tool_call) :
  resolves cfg c = true ->
  exists req finish,
    (forall secret,
       invoke (with_secret cfg secret) c
       = forward (with_secret cfg secret) req finish)
    /\ invoke cfg c = forward cfg req finish
    /\ (forall token,
          String.prefix (FABRIC_BASE ++ "/") (request_url (req token)) = true)
    /\ (forall token, authorization (req token) = Some ("Bearer " ++ py_str token))
    /\ (forall resp, call_free (finish resp) = true).
Proof.
  intros R.
  destruct c; cbn [invoke resolves] in *.
  - eexists _, _. split; [intros secret; reflexivity |].
    split; [reflexivity |]. split; [reflexivity |]. split; [reflexivity |].
    intros resp. call_free_steps.
  - eexists _, _. split; [| split; [| split; [| split]]].
    + intros secret. unfold create_workspace. cbn [CAPACITY_ID with_secret].
      fold (resolved capacity_id (CAPACITY_ID cfg)). rewrite R. reflexivity.
    + unfold create_workspace. fold (resolved capacity_id (CAPACITY_ID cfg)).
      rewrite R. reflexivity.
    + reflexivity.
    + reflexivity.
    + intros resp. call_free_steps.
  - eexists _, _. split; [| split; [| split; [| split]]].
    + intros secret. unfold assign_workspace_admin.
      cbn [USER_OBJECT_ID with_secret].
      fold (resolved user_object_id (USER_OBJECT_ID cfg)). rewrite R.
      reflexivity.
    + unfold assign_workspace_admin.
      fold (resolved user_object_id (USER_OBJECT_ID cfg)). rewrite R.
      reflexivity.
    + reflexivity.
    + reflexivity.
    + intros resp. call_free_steps.
  - eexists _, _. split; [intros secret; reflexivity |].
    split; [reflexivity |]. split; [reflexivity |]. split; [reflexivity |].
    intros resp. call_free_steps.
  - eexists _, _. split; [intros secret; reflexivity |].
    split; [reflexivity |]. split; [reflexivity |]. split; [reflexivity |].
    intros resp. call_free_steps.
  - eexists _, _. split; [intros secret; reflexivity |].
    split; [reflexivity |]. split; [reflexivity |]. split; [reflexivity |].
    intros resp. call_free_steps.
  - eexists _, _. split; [intros secret; reflexivity |].
    split; [reflexivity |]. split; [reflexivity |]. split; [reflexivity |].
    intros resp. call_free_steps.
  - eexists _, _. split; [intros secret; reflexivity |].
    split; [reflexivity |]. split; [reflexivity |]. split; [reflexivity |].
    intros resp. call_free_steps.
  - eexists _, _. split; [| split; [| split; [| split]]].
    + intros secret. unfold assign_pipeline_admin.
      cbn [USER_OBJECT_ID with_secret].
      fold (resolved user_object_id (USER_OBJECT_ID cfg)). rewrite R.
      reflexivity.
    + unfold assign_pipeline_admin.
      fold (resolved user_object_id (USER_OBJECT_ID cfg)). rewrite R.
      reflexivity.
    + reflexivity.
    + reflexivity.
    + intros resp. call_free_steps.
Qed.

Lemma unresolved_makes_no_call (S : Type) (h : transport S) (s : S)
  (c : tool_call) :
  resolves cfg c = false -> snd (run h (invoke cfg c) s) = [].
Proof.
  intros R. destruct c; cbn [resolves] in R; try discriminate; cbn [invoke].
  - unfold create_workspace. fold (resolved capacity_id (CAPACITY_ID cfg)).
    rewrite R. reflexivity.
  - unfold assign_workspace_admin.
    fold (resolved user_object_id (USER_OBJECT_ID cfg)).
    rewrite R. reflexivity.
  - unfold assign_pipeline_admin.
    fold (resolved user_object_id (USER_OBJECT_ID cfg)).
    rewrite R. reflexivity.
Qed.

(** X14: whatever the tool, its arguments and the transport, every call a
    forwarding tool makes is either the token request to the identity
    endpoint of the tenant or a call to an address under the Fabric API
    base that carries a bearer token: the tools talk to no other host. *)
Theorem calls_go_to_identity_or_fabric (S : Type) (h : transport S) (s : S)
  (c : tool_call) :
  Forall
    (fun r =>
       (r = token_request cfg
        /\ request_url r
           = "https://login.microsoftonline.com/" ++ TENANT_ID cfg
             ++ "/oauth2/v2.0/token")
       \/ (String.prefix "https://api.fabric.microsoft.com/v1/" (request_url r)
           = true
           /\ exists token, authorization r = Some ("Bearer " ++ py_str token)))
    (snd (run h (invoke cfg c) s)).
Proof.
  destruct (resolves cfg c) eqn:R.
  - destruct (invoke_forward_upstream c R) as [req [finish [_ [E [P [A CF]]]]]].
    rewrite E. unfold forward. rewrite run_bind.
    destruct (run_get_access_token cfg h s) as [o ->].
    destruct o as [token | e]; cbn [snd].
    + cbn [run]. destruct (h _ (req token)) as [resp s2].
      rewrite (run_call_free h _ s2 (CF resp)). cbn [snd app].
      constructor; [left; split; reflexivity |].
      constructor; [| constructor].
      right. split; [apply P | exists token; apply A].
    + constructor; [left; split; reflexivity | constructor].
  - rewrite (unresolved_makes_no_call h s c R). constructor.
Qed.

(** X15: the client secret reaches the identity endpoint only: with the
    same token in hand, a tool makes the same upstream call under every
    client secret. *)
Theorem upstream_call_ignores_secret (S S' : Type) (h : transport S)
  (h' : transport S') (s s1 : S) (s' s1' : S') (tr tr' : list Request)
  (token : pyval) (c : tool_call) (secret : string) :
  resolves cfg c = true ->
  run h (get_access_token cfg) s = (Returned token, s1, tr) ->
  run h' (get_access_token (with_secret cfg secret)) s'
  = (Returned token, s1', tr') ->
  exists req,
    snd (run h (invoke cfg c) s) = (tr ++ [req])%list
    /\ snd (run h' (invoke (with_secret cfg secret) c) s') = (tr' ++ [req])%list.
Proof.
  intros R Htok Htok'.
  destruct (invoke_forward_upstream c R) as [req [finish [Es [E [_ [_ CF]]]]]].
  exists (req token). rewrite E, (Es secret).
  rewrite (run_forward cfg h s req finish Htok CF).
  rewrite (run_forward (with_secret cfg secret) h' s' req finish Htok' CF).
  split; reflexivity.
Qed.

(** X16: a failed token request shows at most the first six characters of
    the client id: two client ids that agree on them and draw the same
    answer from the identity endpoint end in the same outcome, message
    included. *)
Theorem token_failure_shows_six_characters (S S' : Type) (h : transport S)
  (h' : transport S') (s s1 : S) (s' s1' : S') (resp : Response)
  (client : string) :
  substring 0 6 client = substring 0 6 (CLIENT_ID cfg) ->
  h s (token_request cfg) = (resp, s1) ->
  h' s' (token_request (with_client_id cfg client)) = (resp, s1') ->
  fst (fst (run h' (get_access_token (with_client_id cfg client)) s'))
  = fst (fst (run h (get_access_token cfg) s)).
Proof.
  intros E Hr Hr'.
  rewrite (run_token_answer cfg h s Hr).
  rewrite (run_token_answer (with_client_id cfg client) h' s' Hr').
  cbn [fst]. f_equal.
  unfold after_token_response.
  cbn [get_access_token requests_post_data bind with_client_id TENANT_ID
       CLIENT_ID ENV_SOURCE].
  rewrite E. reflexivity.
Qed.

(** X17: a token answer that passes the status check but is not a JSON
    object does not produce the module's own [RuntimeError]:
    [get_access_token] raises [JSONDecodeError] when the body does not
    decode and [AttributeError] when it decodes to something other than an
    object. *)
Theorem token_body_not_an_object (S : Type) (h : transport S) (s s1 : S)
  (resp : Response) :
  h s (token_request cfg) = (resp, s1) ->
  passes resp ->
  (json resp = None ->
   run h (get_access_token cfg) s
   = (Raised JSONDecodeError, s1, [token_request cfg]))
  /\ (forall v,
        json resp = Some v -> (forall d, v <> PDict d) ->
        run h (get_access_token cfg) s
        = (Raised (AttributeError
                     ("'" ++ type_name v ++ "' object has no attribute 'get'")),
           s1, [token_request cfg])).
Proof.
  intros Hr P. rewrite (run_token_answer cfg h s Hr).
  rewrite (after_token_passed cfg resp P). unfold resp_json. split.
  - intros ->. reflexivity.
  - intros v -> N. destruct v; try reflexivity. contradiction (N d). reflexivity.
Qed.

End Hosts.

Section MalformedStages.

Context `{PyLib}.
Variable cfg : Config.
Variable S : Type.
Variable h : transport S.

(** X18: when the answer to a created pipeline lists a stage without
    [displayName] or without [id], [create_deployment_pipeline] raises
    [KeyError] naming the missing key after the pipeline request was made;
    no pipeline id is returned. *)
Theorem pipeline_stage_missing_key (s s1 s2 : S) (tr : list Request)
  (token : pyval) (resp : Response) (name description : string)
  (stages : list string) (p : pydict) (good rest : list pyval)
  (pairs : list (string * pyval)) (d : pydict) :
  run h (get_access_token cfg) s = (Returned token, s1, tr) ->
  h s1 (pipeline_request name description stages token) = (resp, s2) ->
  status_code resp = 201 ->
  json resp = Some (PDict p) ->
  dict_lookup p (PStr "stages") = Some (PList (good ++ PDict d :: rest)) ->
  Forall2 carries good pairs ->
  (dict_lookup d (PStr "displayName") = None ->
   run h (create_deployment_pipeline cfg name description stages) s =
   (Raised (KeyError "displayName"), s2,
    (tr ++ [pipeline_request name description stages token])%list))
  /\ (dict_lookup d (PStr "displayName") <> None ->
      dict_lookup d (PStr "id") = None ->
      run h (create_deployment_pipeline cfg name description stages) s =
      (Raised (KeyError "id"), s2,
       (tr ++ [pipeline_request name description stages token])%list)).
Proof.
  intros Htok Hup St J L F.
  unfold create_deployment_pipeline. rewrite run_bind, Htok.
  unfold requests_post_json. cbn [bind].
  change (POST_json _ _ (_headers token))
    with (pipeline_request name description stages token).
  erewrite run_call by exact Hup.
  rewrite St. cbn [Z.eqb Pos.eqb].
  unfold resp_json. rewrite J. cbn [bind py_get]. rewrite L.
  cbn [bind py_iter].
  destruct (dict_comprehension_missing_key rest d F) as [K1 K2].
  split.
  - intros N. rewrite (K1 N). reflexivity.
  - intros N1 N2. rewrite (K2 N1 N2). reflexivity.
Qed.

End MalformedStages.

(** ** Closed examples of the further properties *)

Lemma load_module_requires_credentials_witness :
  exists cfg, load_module (sample_process (Some "s3cret")) = Returned cfg.
Proof.
  apply (proj2 (proj1 (load_module_requires_credentials
                         (sample_process (Some "s3cret"))))).
  repeat split; eexists; (split; [reflexivity | discriminate]).
Defined.

Lemma load_module_names_missing_keys_witness :
  load_module client_only_process
  = Raised (RuntimeError
              "Missing required .env values: TENANT_ID, CLIENT_SECRET. WorkingDir=/app EnvSource=/app/.env").
Proof.
  destruct (load_module_names_missing_keys client_only_process eq_refl)
    as [t [c [x [T [C [X [_ [E _]]]]]]]].
  assert (Ht : t = true).
  { apply T. intros [v [Q _]]. discriminate Q. }
  assert (Hx : x = true).
  { apply X. intros [v [Q _]]. discriminate Q. }
  assert (Hc : c = false).
  { destruct c; [| reflexivity]. exfalso.
    apply (proj1 C eq_refl). exists "client-0123".
    split; [reflexivity | discriminate]. }
  rewrite Ht, Hx, Hc in E. exact (f_equal (@Raised Config) E).
Defined.

Lemma mcp_env_info_of_loaded_witness :
  run (scripted token_response)
    (mcp_env_info
       {| TENANT_ID := "tenant-0"; CLIENT_ID := "client-0123";
          CLIENT_SECRET := "s3cret"; USER_OBJECT_ID := None;
          CAPACITY_ID := Some "cap-9"; ENV_SOURCE := "/app/.env" |} "/srv")
    []
  = (Returned
       (py_dict [("cwd", PStr "/srv"); ("env_source", PStr "/app/.env");
                 ("has_tenant_id", PBool true); ("has_client_id", PBool true);
                 ("has_client_secret", PBool true);
                 ("has_user_object_id", PBool false);
                 ("has_capacity_id", PBool true)]),
     [], []).
Proof.
  exact (mcp_env_info_of_loaded (sample_process (Some "s3cret")) "/srv"
           (scripted token_response) [] "ws" "ws" eq_refl).
Defined.

Lemma no_call_iff_unresolved_witness :
  snd (run (scripted token_response)
         (invoke bare_config (call_assign_pipeline_admin "pl" (Some EmptyString)))
         [token_response])
  = [].
Proof.
  apply (proj2 (proj1 (no_call_iff_unresolved bare_config (scripted token_response)
                         [token_response]
                         (call_assign_pipeline_admin "pl" (Some EmptyString))))).
  reflexivity.
Defined.

Lemma explicit_argument_overrides_default_witness :
  snd (run (scripted token_response)
         (create_workspace full_config "ws" (Some "cap-1"))
         [token_response; created None])
  = [token_request full_config; workspace_request "ws" "cap-1" (PStr "tok")].
Proof.
  destruct (explicit_argument_overrides_default full_config
              (scripted token_response) [token_response; created None]
              (s1 := [created None]) (tr := [token_request full_config])
              (token := PStr "tok") (a := "cap-1"))
    as [W _]; [discriminate | reflexivity |].
  exact (W "ws").
Defined.

Lemma admin_tools_use_default_user_witness :
  run (scripted token_response)
    (assign_workspace_admin full_config "ws-1" (Some EmptyString))
    [token_response; answer 200 "OK" "assigned" None]
  = (Returned (py_dict [("status", PInt 200); ("body", PStr "assigned")]), [],
     [token_request full_config;
      workspace_admin_request "ws-1" "user-7" (PStr "tok")]).
Proof.
  destruct (admin_tools_use_default_user full_config (scripted token_response)
              [token_response; answer 200 "OK" "assigned" None]
              (s1 := [answer 200 "OK" "assigned" None])
              (tr := [token_request full_config]) (token := PStr "tok")
              (default := "user-7") "ws-1" (arg := Some EmptyString) eq_refl)
    as [W _]; [discriminate | right; reflexivity | reflexivity |].
  exact W.
Defined.

Lemma folder_body_has_parent_only_when_given_witness :
  snd (run (scripted token_response)
         (create_workspace_folder bare_config "ws-1" "raw" (Some "f-1"))
         [token_response; created None])
  = [token_request bare_config;
     folder_request "ws-1"
       (py_dict [("displayName", PStr "raw"); ("parentFolderId", PStr "f-1")])
       (PStr "tok")].
Proof.
  destruct (folder_body_has_parent_only_when_given bare_config
              (scripted token_response) [token_response; created None]
              (s1 := [created None]) (tr := [token_request bare_config])
              (token := PStr "tok") "ws-1" "raw" eq_refl)
    as [_ W].
  apply (W "f-1"). discriminate.
Defined.

Lemma folder_result_from_answer_witness :
  fst (fst (run (scripted token_response)
              (create_workspace_folder bare_config "ws-1" "raw" None)
              [token_response; created (Some (py_dict [("id", PStr "f-2")]))]))
  = Returned (py_dict [("folder_id", PStr "f-2"); ("displayName", PNone)]).
Proof.
  destruct (folder_result_from_answer bare_config (scripted token_response)
              [token_response; created (Some (py_dict [("id", PStr "f-2")]))]
              (s1 := [created (Some (py_dict [("id", PStr "f-2")]))])
              (tr := [token_request bare_config]) (token := PStr "tok")
              "ws-1" "raw" None eq_refl)
    as [req [T [R _]]].
  simpl in T. injection T as <-.
  exact (R [(PStr "id", PStr "f-2")] eq_refl eq_refl).
Defined.

Lemma created_with_unreadable_body_raises_witness :
  fst (fst (run (scripted token_response)
              (create_workspace full_config "ws" None)
              [token_response; created None]))
  = Raised JSONDecodeError.
Proof.
  destruct (created_with_unreadable_body_raises full_config
              (scripted token_response) [token_response; created None]
              (s1 := [created None]) (tr := [token_request full_config])
              (token := PStr "tok") (call_create_workspace "ws" None)
              eq_refl eq_refl eq_refl)
    as [req [T [R _]]].
  simpl in T. injection T as <-.
  exact (R eq_refl eq_refl).
Defined.

Lemma created_without_id_gives_none_witness :
  fst (fst (run (scripted token_response)
              (create_workspace full_config "ws" None)
              [token_response; created (Some (py_dict [("name", PStr "ws")]))]))
  = Returned (py_dict [("workspace_id", PNone)]).
Proof.
  destruct (created_without_id_gives_none full_config (scripted token_response)
              [token_response; created (Some (py_dict [("name", PStr "ws")]))]
              (s1 := [created (Some (py_dict [("name", PStr "ws")]))])
              [] (tr := [token_request full_config])
              (token := PStr "tok")
              (created (Some (py_dict [("name", PStr "ws")])))
              (j := [(PStr "name", PStr "ws")])
              eq_refl eq_refl eq_refl eq_refl)
    as [W _].
  apply (W "ws" "cap-9" None); [reflexivity | discriminate | reflexivity].
Defined.

Lemma list_workspaces_malformed_document_witness :
  run (scripted token_response) (get_existing_workspaces bare_config)
    [token_response; ok_response (py_dict [("value", PNone)]) "(listing)"]
  = (Raised (TypeError "'NoneType' object is not iterable"), [],
     [token_request bare_config; list_request (PStr "tok")]).
Proof.
  destruct (list_workspaces_malformed_document bare_config
              (scripted token_response)
              [token_response; ok_response (py_dict [("value", PNone)]) "(listing)"]
              (s1 := [ok_response (py_dict [("value", PNone)]) "(listing)"])
              (s2 := []) (tr := [token_request bare_config])
              (token := PStr "tok")
              (resp := ok_response (py_dict [("value", PNone)]) "(listing)")
              eq_refl eq_refl)
    as [_ [_ W]].
  - unfold passes. simpl. lia.
  - exact (W [(PStr "value", PNone)] eq_refl eq_refl).
Defined.

Lemma list_workspaces_entry_missing_key_witness :
  run (scripted token_response) (get_existing_workspaces bare_config)
    [token_response; ok_response listing_without_id "(listing)"]
  = (Raised (KeyError "id"), [],
     [token_request bare_config; list_request (PStr "tok")]).
Proof.
  destruct (list_workspaces_entry_missing_key bare_config
              (scripted token_response)
              [token_response; ok_response listing_without_id "(listing)"]
              (s1 := [ok_response listing_without_id "(listing)"])
              (s2 := []) (tr := [token_request bare_config])
              (token := PStr "tok")
              (resp := ok_response listing_without_id "(listing)")
              (data := [(PStr "value",
                         PList [py_dict [("displayName", PStr "A"); ("id", PStr "1")];
                                py_dict [("displayName", PStr "B")]])])
              (good := [py_dict [("displayName", PStr "A"); ("id", PStr "1")]])
              [] (pairs := [("A", PStr "1")])
              [(PStr "displayName", PStr "B")]
              eq_refl eq_refl)
    as [_ W].
  - unfold passes. simpl. lia.
  - reflexivity.
  - reflexivity.
  - carried.
  - apply W; [discriminate | reflexivity].
Defined.

Lemma upstream_call_ignores_secret_witness :
  exists req,
    snd (run (scripted token_response)
           (invoke bare_config (call_create_lakehouse "ws" "lake"))
           [token_response; created None])
    = [token_request bare_config; req]
    /\ snd (run (scripted token_response)
              (invoke (with_secret bare_config "other")
                 (call_create_lakehouse "ws" "lake"))
              [token_response; created None])
       = [token_request (with_secret bare_config "other"); req].
Proof.
  exact (upstream_call_ignores_secret bare_config
           (scripted token_response) (scripted token_response)
           [token_response; created None] [token_response; created None]
           (s1 := [created None]) (s1' := [created None])
           (tr := [token_request bare_config])
           (tr' := [token_request (with_secret bare_config "other")])
           (token := PStr "tok") (call_create_lakehouse "ws" "lake")
           "other" eq_refl eq_refl eq_refl).
Defined.

Lemma token_failure_shows_six_characters_witness :
  fst (fst (run (scripted token_response)
              (get_access_token (with_client_id bare_config "client-9999"))
              [token_denied]))
  = fst (fst (run (scripted token_response) (get_access_token bare_config)
                [token_denied])).
Proof.
  exact (token_failure_shows_six_characters bare_config
           (scripted token_response) (scripted token_response)
           [token_denied] [token_denied] (s1 := []) (s1' := [])
           (resp := token_denied) "client-9999"
           eq_refl eq_refl eq_refl).
Defined.

Lemma token_body_not_an_object_witness :
  run (scripted token_response) (get_access_token bare_config)
    [ok_response (PList [PStr "tok"]) "(token document)"]
  = (Raised (AttributeError "'list' object has no attribute 'get'"), [],
     [token_request bare_config]).
Proof.
  destruct (token_body_not_an_object bare_config (scripted token_response)
              [ok_response (PList [PStr "tok"]) "(token document)"]
              (s1 := [])
              (resp := ok_response (PList [PStr "tok"]) "(token document)")
              eq_refl)
    as [_ W].
  - unfold passes. simpl. lia.
  - apply (W (PList [PStr "tok"])); [reflexivity | discriminate].
Defined.

Lemma pipeline_stage_missing_key_witness :
  run (scripted token_response)
    (create_deployment_pipeline bare_config "pipe" "demo" ["Dev"; "Test"])
    [token_response;
     created (Some (py_dict
                      [("id", PStr "pl-1");
                       ("stages",
                        PList [py_dict [("displayName", PStr "Dev");
                                        ("id", PStr "d1")];
                               py_dict [("id", PStr "t1")]])]))]
  = (Raised (KeyError "displayName"), [],
     [token_request bare_config;
      pipeline_request "pipe" "demo" ["Dev"; "Test"] (PStr "tok")]).
Proof.
  destruct (pipeline_stage_missing_key bare_config (scripted token_response)
              [token_response;
               created (Some (py_dict
                                [("id", PStr "pl-1");
                                 ("stages",
                                  PList [py_dict [("displayName", PStr "Dev");
                                                  ("id", PStr "d1")];
                                         py_dict [("id", PStr "t1")]])]))]
              (s1 := [created (Some (py_dict
                                [("id", PStr "pl-1");
                                 ("stages",
                                  PList [py_dict [("displayName", PStr "Dev");
                                                  ("id", PStr "d1")];
                                         py_dict [("id", PStr "t1")]])]))])
              (s2 := []) (tr := [token_request bare_config])
              (token := PStr "tok")
              (resp := created (Some (py_dict
                                [("id", PStr "pl-1");
                                 ("stages",
                                  PList [py_dict [("displayName", PStr "Dev");
                                                  ("id", PStr "d1")];
                                         py_dict [("id", PStr "t1")]])])))
              "pipe" "demo" ["Dev"; "Test"]
              (p := [(PStr "id", PStr "pl-1");
                     (PStr "stages",
                      PList [py_dict [("displayName", PStr "Dev");
                                      ("id", PStr "d1")];
                             py_dict [("id", PStr "t1")]])])
              (good := [py_dict [("displayName", PStr "Dev"); ("id", PStr "d1")]])
              [] (pairs := [("Dev", PStr "d1")]) [(PStr "id", PStr "t1")]
              eq_refl eq_refl eq_refl eq_refl eq_refl)
    as [W _].
  - carried.
  - apply W. reflexivity.
Defined.
